(** * BLS slide creator: the extraction and reshaping logic of
    [BLS_Slide_Creator.py], embedded and checked against its specification.

    The script is one linear pass: it loads the JSON answer of the statistics
    API, pulls the latest observation of every series and the history of two
    series, joins the two histories with pandas, and writes the result into a
    slide.  The embedding keeps the Python values as they come out of
    [json.loads], with the exceptions the interpreter raises on ill-shaped
    input, and models the pandas calls on tables of text cells. *)

From stdpp Require Import gmap strings list fin_maps sorting.
From Stdlib Require Import ZArith Lia Ascii.

Open Scope Z_scope.
Open Scope string_scope.

(** ** Python values and exceptions *)

(** What [json.loads] produces: [None], booleans, numbers, [str], [list] and
    [dict] with [str] keys.  The script never computes with a number, so the
    integer payload stands for any JSON number. *)
#[warnings="-register-all"]
Inductive json : Type :=
| JNull
| JBool (b : bool)
| JNum (n : Z)
| JStr (s : string)
| JArr (l : list json)
| JObj (d : gmap string json).

(** The built-in exception classes the script can raise. *)
Inductive exn : Type :=
| KeyError
| TypeError
| AttributeError.

(** The class name of an exception, as Python prints it. *)
Definition exn_class (e : exn) : string :=
  match e with
  | KeyError => "KeyError"
  | TypeError => "TypeError"
  | AttributeError => "AttributeError"
  end.

(** A computation either returns a value or raises.  [Unmodelled] marks an
    input that leaves the fragment of pandas described below (cells that are
    not text, years that are not plain decimal numbers, dates pandas cannot
    represent at every resolution): nothing is stated about the script
    there. *)
Inductive outcome (A : Type) : Type :=
| Ok (a : A)
| Raise (e : exn)
| Unmodelled.
Arguments Ok {A} a.
Arguments Raise {A} e.
Arguments Unmodelled {A}.

#[export] Instance outcome_ret : MRet outcome := λ A a, Ok a.
#[export] Instance outcome_bind : MBind outcome := λ A B k c,
  match c with
  | Ok a => k a
  | Raise e => Raise e
  | Unmodelled => Unmodelled
  end.

(** [obj[key]] for a [str] key: only a [dict] can be subscripted by a string;
    a missing key is a [KeyError], any other receiver a [TypeError]. *)
Definition subscript (obj : json) (key : string) : outcome json :=
  match obj with
  | JObj d =>
      match d !! key with
      | Some v => Ok v
      | None => Raise KeyError
      end
  | _ => Raise TypeError
  end.

(** [obj.get(key)]: only a [dict] has the method; a missing key gives
    [None]. *)
Definition get (obj : json) (key : string) : outcome json :=
  match obj with
  | JObj d => Ok (default JNull (d !! key))
  | _ => Raise AttributeError
  end.

(** [d[k]] on a [dict] whose keys are all [str], for any key value: a list
    or a [dict] is unhashable, every other value is simply absent unless it
    is one of the keys. *)
Definition lookup_key {V : Type} (d : gmap string V) (k : json) : outcome V :=
  match k with
  | JStr s =>
      match d !! s with
      | Some v => Ok v
      | None => Raise KeyError
      end
  | JArr _ | JObj _ => Raise TypeError
  | _ => Raise KeyError
  end.

(** The characters of a string, each as a one-character [str]. *)
Fixpoint chars (s : string) : list json :=
  match s with
  | EmptyString => []
  | String a s' => JStr (String a EmptyString) :: chars s'
  end.

(** [for item in obj]: a list yields its elements, a [dict] its keys, a
    [str] its characters; nothing else is iterable. *)
Definition iterate (obj : json) : outcome (list json) :=
  match obj with
  | JArr l => Ok l
  | JObj d => Ok (JStr <$> (map_to_list d).*1)
  | JStr s => Ok (chars s)
  | _ => Raise TypeError
  end.

(** [v == s] for a [str] literal [s]. *)
Definition eq_str (v : json) (s : string) : bool :=
  match v with
  | JStr t => bool_decide (t = s)
  | _ => false
  end.

(** [a + b] where the script concatenates text: both operands must be
    [str]. *)
Definition add_str (a : json) (b : json) : outcome json :=
  match a, b with
  | JStr s, JStr t => Ok (JStr (s ++ t))
  | _, _ => Raise TypeError
  end.

(** ** Extractor *)

(** The loop of [find_latest_value]: the first item whose ['latest'] is the
    text ['true'], or [None] when the loop runs to its end. *)
Fixpoint scan_latest (items : list json) : outcome json :=
  match items with
  | [] => Ok JNull
  | item :: rest =>
      flag ← get item "latest" ;
      if eq_str flag "true" then Ok item else scan_latest rest
  end.

(** [find_latest_value(jsoninput)]: the tuple is built left to right. *)
Definition find_latest_value (jsoninput : json) : outcome (json * json * json) :=
  data ← subscript jsoninput "data" ;
  items ← iterate data ;
  latest_data ← scan_latest items ;
  sid ← subscript jsoninput "seriesID" ;
  value ← subscript latest_data "value" ;
  pn ← subscript latest_data "periodName" ;
  pn_dash ← add_str pn (JStr "-") ;
  year ← subscript latest_data "year" ;
  label ← add_str pn_dash year ;
  Ok (sid, value, label).

(** The loop of [find_trended_data]; falling off the end of the function
    returns [None]. *)
Fixpoint scan_trended (data_dict_key : gmap string string) (key : string)
    (items : list json) : outcome json :=
  match items with
  | [] => Ok JNull
  | item :: rest =>
      sid ← subscript item "seriesID" ;
      label ← lookup_key data_dict_key sid ;
      if bool_decide (label = key) then subscript item "data"
      else scan_trended data_dict_key key rest
  end.

(** [find_trended_data(jsoninput, data_dict_key, key)]. *)
Definition find_trended_data (jsoninput : json)
    (data_dict_key : gmap string string) (key : string) : outcome json :=
  items ← iterate jsoninput ;
  scan_trended data_dict_key key items.

(** The identifier-to-label table of the script. *)
Definition data_dict_key : gmap string string :=
  list_to_map
    [ ("LNS13000000", "Unemployment Level");
      ("JTS000000000000000JOL", "Labor Force");
      ("CES0500000003", "Avg Hourly Earnings");
      ("LNS14000000", "Unemployment Rate") ].

(** The loop that fills [Lvals_dict]: one entry per series, keyed by the
    label of the series, holding the pair (value, period label). *)
Fixpoint fill_Lvals (series : list json) (Lvals_dict : gmap string (json * json))
    : outcome (gmap string (json * json)) :=
  match series with
  | [] => Ok Lvals_dict
  | each :: rest =>
      catch ← find_latest_value each ;
      label ← lookup_key data_dict_key catch.1.1 ;
      fill_Lvals rest (<[label := (catch.1.2, catch.2)]> Lvals_dict)
  end.

(** ** Renderer: the speaker notes *)

Definition newline : string := String "010"%char EmptyString.

(** The text assigned to [notes_text_frame.text]; [URT_Data] and [AHE_Data]
    are entries of [Lvals_dict], and the sum associates to the left. *)
Definition notes_text (URT_Data AHE_Data : json * json) : outcome json :=
  t1 ← add_str (JStr "Unemployment Rate Data: ") URT_Data.2 ;
  t2 ← add_str t1 (JStr newline) ;
  t3 ← add_str t2 (JStr "Avg Hourly Earnings Data: ") ;
  add_str t3 AHE_Data.2.

(** Lines 88 to 98 followed by lines 212 to 215: the notes the script writes
    for a parsed answer of the API. *)
Definition speaker_notes (json_data : json) : outcome json :=
  results ← subscript json_data "Results" ;
  series ← subscript results "series" ;
  items ← iterate series ;
  Lvals_dict ← fill_Lvals items ∅ ;
  URT_Data ← lookup_key Lvals_dict (JStr "Unemployment Rate") ;
  AHE_Data ← lookup_key Lvals_dict (JStr "Avg Hourly Earnings") ;
  notes_text URT_Data AHE_Data.

(** ** Reshaper: the pandas calls *)

(** A row of [UEL_DF] or [LF_DF]: the four columns left once ['footnotes']
    and ['latest'] are dropped.  The cells are text, as the API sends
    them. *)
Record obs_row : Type := ObsRow {
  o_year : string;
  o_period : string;
  o_periodName : string;
  o_value : string
}.

(** A row of [merged_df] as [pd.merge] returns it. *)
Record merged_row : Type := MergedRow {
  m_year : string;
  m_period : string;
  m_periodName : string;
  m_value_UEL : string;
  m_value_LB : string
}.

(** A row of [merged_df] once the three derived columns are added.  A
    missing month is pandas' [NaN], a missing date its [NaT]; a date is kept
    as the number [year * 10000 + month * 100 + day] that [pd.to_datetime]
    assembles and reads back with the format [%Y%m%d], so that dates compare
    as these numbers do. *)
Record trend_row : Type := TrendRow {
  year : string;
  period : string;
  periodName : string;
  value_UEL : string;
  value_LB : string;
  month : option Z;
  date : option Z;
  pdnamelist : string
}.

#[export] Instance obs_row_eq_dec : EqDecision obs_row.
Proof. solve_decision. Defined.
#[export] Instance merged_row_eq_dec : EqDecision merged_row.
Proof. solve_decision. Defined.
#[export] Instance trend_row_eq_dec : EqDecision trend_row.
Proof. solve_decision. Defined.

Definition as_text (v : json) : option string :=
  match v with
  | JStr s => Some s
  | _ => None
  end.

(** The columns an observation of the API may carry. *)
Definition observation_columns : gset string :=
  {[ "year"; "period"; "periodName"; "value"; "footnotes"; "latest" ]}.

(** One observation as a table row: a [dict] with the four kept columns as
    text and no column beyond those of the API. *)
Definition observation (item : json) : option obs_row :=
  match item with
  | JObj d =>
      if bool_decide (dom d ⊆ observation_columns) then
        y ← d !! "year" ≫= as_text ;
        p ← d !! "period" ≫= as_text ;
        pn ← d !! "periodName" ≫= as_text ;
        v ← d !! "value" ≫= as_text ;
        Some (ObsRow y p pn v)
      else None
  | _ => None
  end.

(** Whether some record of the list has the key, that is whether the frame
    built from the list has the column. *)
Definition has_column (c : string) (items : list json) : bool :=
  existsb (λ item, match item with
                   | JObj d => bool_decide (is_Some (d !! c))
                   | _ => false
                   end) items.

(** [pd.DataFrame(data).drop(columns=['footnotes', 'latest'])].  The frame
    of [None] or of an empty list has no column, and dropping a column that
    is not there raises [KeyError]. *)
Definition DataFrame_drop (data : json) : outcome (list obs_row) :=
  match data with
  | JNull => Raise KeyError
  | JArr items =>
      match mapM observation items with
      | Some rows =>
          if has_column "footnotes" items && has_column "latest" items
          then Ok rows else Raise KeyError
      | None => Unmodelled
      end
  | _ => Unmodelled
  end.

(** The join key [on=['year', 'period', 'periodName']]. *)
Definition key_of (r : obs_row) : string * string * string :=
  (o_year r, o_period r, o_periodName r).

Definition m_key_of (r : merged_row) : string * string * string :=
  (m_year r, m_period r, m_periodName r).

Definition join_rows (a b : obs_row) : merged_row :=
  MergedRow (o_year a) (o_period a) (o_periodName a) (o_value a) (o_value b).

(** [pd.merge(left, right, on=[...], suffixes=('_UEL', '_LB'))]: the default
    inner join, one row for every pair of a left and a right row with the
    same key, in the order of the left rows. *)
Definition merge (left right : list obs_row) : list merged_row :=
  a ← left ; join_rows a <$> filter (λ b, key_of b = key_of a) right.

(** The month table of the script. *)
Definition month_map : gmap string Z :=
  list_to_map
    [ ("January", 1); ("February", 2); ("March", 3); ("April", 4);
      ("May", 5); ("June", 6); ("July", 7); ("August", 8);
      ("September", 9); ("October", 10); ("November", 11); ("December", 12) ].

Definition digit (a : ascii) : option Z :=
  let n := Z.of_nat (nat_of_ascii a) in
  if bool_decide (48 ≤ n ≤ 57)%Z then Some (n - 48) else None.

Fixpoint digits (acc : Z) (s : string) : option Z :=
  match s with
  | EmptyString => Some acc
  | String a s' => d ← digit a ; digits (10 * acc + d) s'
  end.

(** [pd.to_numeric] on a text cell, for plain decimal numbers. *)
Definition to_numeric (s : string) : outcome Z :=
  match s with
  | EmptyString => Unmodelled
  | _ => match digits 0 s with
         | Some n => Ok n
         | None => Unmodelled
         end
  end.

(** One row of [pd.to_datetime(merged_df[['year', 'month']].assign(day=1))]:
    the year is made a number; for a year from 1678 to 2261, whose every
    first of the month pandas represents whatever its version, a row
    without a month gets no date and a row with a month from 1 to 12 gets
    the first day of that month.  Nothing is said for other years, on some
    of which pandas raises, nor for other months. *)
Definition to_datetime (y : string) (m : option Z) : outcome (option Z) :=
  n ← to_numeric y ;
  if bool_decide (1678 ≤ n ≤ 2261)%Z then
    match m with
    | Some k =>
        if bool_decide (1 ≤ k ≤ 12)%Z
        then Ok (Some (n * 10000 + k * 100 + 1)%Z)
        else Unmodelled
    | None => Ok None
    end
  else Unmodelled.

(** Lines 126 to 131 on one row: [Series.map] with a [dict] gives [NaN] for a
    name that is not a key of the table. *)
Definition derive (r : merged_row) : outcome trend_row :=
  let mth := month_map !! m_periodName r in
  d ← to_datetime (m_year r) mth ;
  Ok (TrendRow (m_year r) (m_period r) (m_periodName r) (m_value_UEL r)
        (m_value_LB r) mth d (m_periodName r ++ "-" ++ m_year r)).

(** The order [sort_values] sorts by: ascending dates, rows without a date
    last ([na_position='last']). *)
Definition na_last_le (d1 d2 : option Z) : Prop :=
  match d1, d2 with
  | Some a, Some b => (a ≤ b)%Z
  | _, None => True
  | None, Some _ => False
  end.

#[export] Instance na_last_le_dec d1 d2 : Decision (na_last_le d1 d2).
Proof. destruct d1, d2; simpl; apply _. Defined.

Definition row_le (r1 r2 : trend_row) : Prop := na_last_le (date r1) (date r2).

#[export] Instance row_le_dec r1 r2 : Decision (row_le r1 r2).
Proof. unfold row_le. apply _. Defined.

(** [merged_df.sort_values(ascending=True, by=['date'])].  The order in
    which rows of equal date come out is not part of the model: what
    follows uses only that the result is sorted and holds the same rows. *)
Definition sort_values (rows : list trend_row) : list trend_row :=
  merge_sort row_le rows.

(** Lines 113 to 133: from the two frames to the sorted table. *)
Definition Reshaper (UEL_DF LF_DF : list obs_row) : outcome (list trend_row) :=
  rows ← mapM derive (merge UEL_DF LF_DF) ;
  Ok (sort_values rows).

(** Lines 101 to 133: from the series of the answer to the sorted table. *)
Definition trended_table (series : json) : outcome (list trend_row) :=
  UEL_Data ← find_trended_data series data_dict_key "Unemployment Level" ;
  LF_Data ← find_trended_data series data_dict_key "Labor Force" ;
  UEL_DF ← DataFrame_drop UEL_Data ;
  LF_DF ← DataFrame_drop LF_Data ;
  Reshaper UEL_DF LF_DF.

(** How pandas compares two dates with [<=]: a comparison with [NaT] is
    false. *)
Definition date_le (d1 d2 : option Z) : Prop :=
  match d1, d2 with
  | Some a, Some b => (a ≤ b)%Z
  | _, _ => False
  end.

(** ** Vocabulary of the specification *)

(** The computation ends with an exception of the class named [cls]. *)
Definition fails_with {A : Type} (c : outcome A) (cls : string) : Prop :=
  ∃ e, c = Raise e ∧ exn_class e = cls.

(** An entry of an observation sequence is a [dict]. *)
Definition is_dict (item : json) : bool :=
  match item with
  | JObj _ => true
  | _ => false
  end.

(** The entry carries the latest flag ['true']. *)
Definition is_latest (item : json) : bool :=
  match item with
  | JObj d => eq_str (default JNull (d !! "latest")) "true"
  | _ => false
  end.

(** The entry is an observation with the given value, period name and
    year. *)
Definition entry (item v : json) (pn y : string) : Prop :=
  ∃ d, item = JObj d ∧ d !! "value" = Some v ∧
       d !! "periodName" = Some (JStr pn) ∧ d !! "year" = Some (JStr y).

(** A series object: an identifier and a sequence of observations. *)
Definition series_of (s sid : json) (items : list json) : Prop :=
  ∃ d, s = JObj d ∧ d !! "seriesID" = Some sid ∧ d !! "data" = Some (JArr items).

(** ** Text *)

Lemma append_nil_l (t : string) : "" ++ t = t.
Proof. reflexivity. Qed.

Lemma append_cons (a : ascii) (s t : string) :
  String a s ++ t = String a (s ++ t).
Proof. reflexivity. Qed.

Lemma append_assoc (s t u : string) : (s ++ t) ++ u = s ++ (t ++ u).
Proof.
  induction s as [|a s IH]; [done|].
  by rewrite !append_cons, IH.
Qed.

(** ** The Extractor: [find_latest_value] *)

Section Extractor.

Implicit Types (items pre post : list json) (e item s sid v : json).

Lemma is_latest_dict item : is_latest item = true → is_dict item = true.
Proof. by destruct item. Qed.

Lemma entry_dict item v pn y : entry item v pn y → is_dict item = true.
Proof. by intros (d & -> & _). Qed.

Lemma scan_latest_skip item items :
  is_dict item = true → is_latest item = false →
  scan_latest (item :: items) = scan_latest items.
Proof.
  destruct item; try done. simpl. intros _ Hl. by rewrite Hl.
Qed.

Lemma scan_latest_hit item items :
  is_latest item = true → scan_latest (item :: items) = Ok item.
Proof.
  destruct item; try done. simpl. intros Hl. by rewrite Hl.
Qed.

(** The loop stops at the first flagged entry. *)
Lemma scan_latest_first pre e post :
  Forall (λ i, is_dict i = true) pre →
  Forall (λ i, is_latest i = false) pre →
  is_latest e = true →
  scan_latest (pre ++ e :: post)%list = Ok e.
Proof.
  induction pre as [|i pre IH]; intros Hd Hn He.
  - by apply scan_latest_hit.
  - inversion_clear Hd. inversion_clear Hn.
    rewrite <- app_comm_cons, scan_latest_skip by done. by apply IH.
Qed.

(** Without a flagged entry the loop leaves [latest_data] at [None]. *)
Lemma scan_latest_none items :
  Forall (λ i, is_dict i = true) items →
  Forall (λ i, is_latest i = false) items →
  scan_latest items = Ok JNull.
Proof.
  induction items as [|i items IH]; intros Hd Hn; [done|].
  inversion_clear Hd. inversion_clear Hn.
  rewrite scan_latest_skip by done. by apply IH.
Qed.

(** A sequence with a flagged entry splits at its first flagged entry. *)
Lemma first_latest_split items :
  Exists (λ i, is_latest i = true) items →
  ∃ pre e post, items = (pre ++ e :: post)%list ∧
                Forall (λ i, is_latest i = false) pre ∧ is_latest e = true.
Proof.
  induction items as [|i items IH]; intros Hex; [by inversion Hex|].
  destruct (is_latest i) eqn:Hi.
  - by exists [], i, items.
  - inversion_clear Hex as [? ? Hi'|? ? Hex']; [congruence|].
    destruct (IH Hex') as (pre & e & post & -> & Hpre & He).
    exists (i :: pre), e, post. split_and!; [done| by constructor | done].
Qed.

(** What the function returns once the loop has found an observation. *)
Lemma find_latest_value_found s sid items e v pn y :
  series_of s sid items → scan_latest items = Ok e → entry e v pn y →
  find_latest_value s = Ok (sid, v, JStr (pn ++ "-" ++ y)).
Proof.
  intros (d & -> & Hsid & Hdata) Hscan (de & -> & Hv & Hpn & Hy).
  unfold find_latest_value. simpl. rewrite Hdata. simpl.
  rewrite Hscan. simpl. rewrite Hsid, Hv, Hpn. simpl. rewrite Hy. simpl.
  by rewrite append_assoc.
Qed.

End Extractor.

(** No computation of the script ends with a [DataShapeError]: the script
    defines no exception class of its own. *)
Lemma never_DataShapeError {A : Type} (c : outcome A) :
  ¬ fails_with c "DataShapeError".
Proof. intros (e & _ & He). by destruct e. Qed.

(** *** Sample answers of the API *)

Definition observation_of (y p pn v : string) (flag : option string) : json :=
  JObj (list_to_map
          ([ ("year", JStr y); ("period", JStr p); ("periodName", JStr pn);
             ("value", JStr v); ("footnotes", JArr [JObj ∅]) ]
           ++ match flag with
              | Some f => [("latest", JStr f)]
              | None => []
              end)%list).

Definition series (sid : string) (items : list json) : json :=
  JObj (list_to_map [("seriesID", JStr sid); ("data", JArr items)]).

Definition march_2024 : json :=
  observation_of "2024" "M03" "March" "3.7" (Some "true").

Definition february_2024 : json :=
  observation_of "2024" "M02" "February" "3.9" None.

(** A second flagged entry, which a well-formed answer does not have. *)
Definition january_2024_flagged : json :=
  observation_of "2024" "M01" "January" "3.8" (Some "true").

(** For every identifier, the series holding the observation
    [{value: "3.7", periodName: "March", year: "2024", latest: "true"}]
    yields the identifier, ["3.7"] and ["March-2024"]. *)
Lemma find_latest_value_march (sid : json) :
  find_latest_value
    (JObj (<["seriesID" := sid]> {["data" := JArr [february_2024; march_2024]]}))
  = Ok (sid, JStr "3.7", JStr "March-2024").
Proof. by vm_compute. Qed.

(** C1: for a series whose observation sequence has at least one entry
    flagged latest, [find_latest_value] returns the series identifier, the
    value of a flagged entry of the sequence, and that entry's period name,
    a hyphen and its year. *)
Theorem find_latest_value_flagged (s sid : json) (items : list json) :
  series_of s sid items →
  Forall (λ i, ∃ v pn y, entry i v pn y) items →
  Exists (λ i, is_latest i = true) items →
  ∃ e v pn y, e ∈ items ∧ is_latest e = true ∧ entry e v pn y ∧
    find_latest_value s = Ok (sid, v, JStr (pn ++ "-" ++ y)).
Proof.
  intros Hs Hall Hex.
  destruct (first_latest_split items Hex) as (pre & e & post & -> & Hpre & He).
  apply Forall_app in Hall as [Hallpre Halle].
  inversion_clear Halle as [|? ? (v & pn & y & Hentry) _].
  exists e, v, pn, y. split_and!; [set_solver | done | done |].
  eapply find_latest_value_found; [done | | done].
  apply scan_latest_first; [|done..].
  eapply Forall_impl; [exact Hallpre|].
  intros i (v' & pn' & y' & Hi). by eapply entry_dict.
Qed.

(** The sample series with one flagged observation: the hypotheses of C1
    hold and the function returns ["3.7"] and ["March-2024"]. *)
Lemma find_latest_value_flagged_witness :
  ∃ e v pn y,
    e ∈ [february_2024; march_2024] ∧ is_latest e = true ∧ entry e v pn y ∧
    find_latest_value (series "LNS14000000" [february_2024; march_2024])
    = Ok (JStr "LNS14000000", v, JStr (pn ++ "-" ++ y)).
Proof.
  apply (find_latest_value_flagged
           (series "LNS14000000" [february_2024; march_2024])
           (JStr "LNS14000000") [february_2024; march_2024]).
  - eexists. split; [reflexivity|]. split; by vm_compute.
  - repeat constructor.
    + exists (JStr "3.9"), "February", "2024".
      eexists. split; [reflexivity|]. split_and!; by vm_compute.
    + exists (JStr "3.7"), "March", "2024".
      eexists. split; [reflexivity|]. split_and!; by vm_compute.
  - apply Exists_cons_tl, Exists_cons_hd. by vm_compute.
Defined.

(** C10: when several entries are flagged, the first one in sequence order
    decides the result, whatever follows it. *)
Theorem find_latest_value_first (s sid : json) (pre post : list json)
    (e v : json) (pn y : string) :
  series_of s sid (pre ++ e :: post)%list →
  Forall (λ i, is_dict i = true) pre →
  Forall (λ i, is_latest i = false) pre →
  is_latest e = true →
  entry e v pn y →
  find_latest_value s = Ok (sid, v, JStr (pn ++ "-" ++ y)).
Proof.
  intros Hs Hd Hn He Hentry.
  eapply find_latest_value_found; [done | | done].
  by apply scan_latest_first.
Qed.

(** Two flagged entries: the result is that of March, the first one, not
    that of January. *)
Lemma find_latest_value_first_witness :
  find_latest_value
    (series "LNS14000000" [february_2024; march_2024; january_2024_flagged])
  = Ok (JStr "LNS14000000", JStr "3.7", JStr ("March" ++ "-" ++ "2024")).
Proof.
  apply (find_latest_value_first _ _ [february_2024] [january_2024_flagged]
           march_2024).
  - eexists. split; [reflexivity|]. split; by vm_compute.
  - repeat constructor.
  - repeat constructor.
  - by vm_compute.
  - eexists. split; [reflexivity|]. split_and!; by vm_compute.
Defined.

(** The series used against C2: no entry is flagged. *)
Definition unflagged_series : json :=
  series "LNS14000000" [february_2024].

(** C2, as stated, fails: without a flagged entry the function raises the
    [TypeError] of subscripting [None], not a [DataShapeError]. *)
Lemma find_latest_value_unflagged_not_DataShapeError :
  is_latest february_2024 = false ∧
  find_latest_value unflagged_series = Raise TypeError ∧
  ¬ fails_with (find_latest_value unflagged_series) "DataShapeError".
Proof.
  split_and!; [by vm_compute | by vm_compute | apply never_DataShapeError].
Qed.

(** C2, amended: for a series whose observation sequence has no entry
    flagged latest, [find_latest_value] fails with the [TypeError] raised by
    subscripting [None]; the failure is not a [DataShapeError]. *)
Theorem find_latest_value_unflagged (s sid : json) (items : list json) :
  series_of s sid items →
  Forall (λ i, is_dict i = true) items →
  Forall (λ i, is_latest i = false) items →
  find_latest_value s = Raise TypeError ∧
  fails_with (find_latest_value s) "TypeError" ∧
  ¬ fails_with (find_latest_value s) "DataShapeError".
Proof.
  intros (d & -> & Hsid & Hdata) Hd Hn.
  assert (find_latest_value (JObj d) = Raise TypeError) as Hr.
  { unfold find_latest_value. simpl. rewrite Hdata. simpl.
    rewrite (scan_latest_none items Hd Hn). simpl. by rewrite Hsid. }
  split_and!; [done | by exists TypeError; rewrite Hr | apply never_DataShapeError].
Qed.

Lemma find_latest_value_unflagged_witness :
  find_latest_value unflagged_series = Raise TypeError ∧
  fails_with (find_latest_value unflagged_series) "TypeError" ∧
  ¬ fails_with (find_latest_value unflagged_series) "DataShapeError".
Proof.
  apply (find_latest_value_unflagged unflagged_series (JStr "LNS14000000")
           [february_2024]).
  - eexists. split; [reflexivity|]. split; by vm_compute.
  - repeat constructor.
  - repeat constructor.
Defined.

(** ** The Extractor: [find_trended_data] *)

(** The series whose identifier the table maps to the label [key]. *)
Definition has_label (dk : gmap string string) (key : string) (item : json)
    : bool :=
  match item with
  | JObj d =>
      match d !! "seriesID" with
      | Some (JStr sid) => bool_decide (dk !! sid = Some key)
      | _ => false
      end
  | _ => false
  end.

(** A series object whose identifier is a key of the table. *)
Definition known (dk : gmap string string) (item : json) : Prop :=
  ∃ d sid, item = JObj d ∧ d !! "seriesID" = Some (JStr sid) ∧
           is_Some (dk !! sid).

Section Trended.

Context (dk : gmap string string) (key : string).
Implicit Types (items pre post : list json) (item dat : json).

Lemma scan_trended_skip item items :
  known dk item → has_label dk key item = false →
  scan_trended dk key (item :: items) = scan_trended dk key items.
Proof.
  intros (d & sid & -> & Hsid & [label Hlabel]) Hl.
  simpl in *. rewrite Hsid in *. simpl. rewrite Hlabel in *. simpl.
  destruct (decide (label = key)) as [->|Hne].
  - by rewrite bool_decide_eq_true_2 in Hl.
  - by rewrite bool_decide_eq_false_2.
Qed.

Lemma scan_trended_hit item items :
  has_label dk key item = true →
  scan_trended dk key (item :: items) = subscript item "data".
Proof.
  destruct item as [| | | | |d]; try done. simpl.
  destruct (d !! "seriesID") as [[| | |sid| |]|] eqn:Hsid; try done.
  intros Hl%bool_decide_eq_true. simpl. rewrite Hl. simpl.
  by rewrite bool_decide_eq_true_2.
Qed.

Lemma scan_trended_first pre item post :
  Forall (known dk) pre →
  Forall (λ i, has_label dk key i = false) pre →
  has_label dk key item = true →
  scan_trended dk key (pre ++ item :: post)%list = subscript item "data".
Proof.
  induction pre as [|i pre IH]; intros Hk Hn Hl.
  - by apply scan_trended_hit.
  - inversion_clear Hk. inversion_clear Hn.
    rewrite <- app_comm_cons, scan_trended_skip by done. by apply IH.
Qed.

Lemma scan_trended_none items :
  Forall (known dk) items →
  Forall (λ i, has_label dk key i = false) items →
  scan_trended dk key items = Ok JNull.
Proof.
  induction items as [|i items IH]; intros Hk Hn; [done|].
  inversion_clear Hk. inversion_clear Hn.
  rewrite scan_trended_skip by done. by apply IH.
Qed.

End Trended.

Definition unemployment_level_series : json :=
  series "LNS13000000"
    [ observation_of "2023" "M03" "March" "6000" (Some "true");
      observation_of "2023" "M02" "February" "5900" None;
      observation_of "2023" "M01" "January" "5700" None ].

Definition labor_force_series : json :=
  series "JTS000000000000000JOL"
    [ observation_of "2023" "M03" "March" "9000" (Some "true");
      observation_of "2023" "M01" "January" "9900" None ].

(** C4, as stated, fails: with no series of the asked label in the list the
    function does not fail, it returns [None]. *)
Lemma find_trended_data_no_match_returns_None :
  Forall (λ i, has_label data_dict_key "Labor Force" i = false)
    [unemployment_level_series] ∧
  find_trended_data (JArr [unemployment_level_series]) data_dict_key
    "Labor Force" = Ok JNull ∧
  ¬ (∃ e, find_trended_data (JArr [unemployment_level_series]) data_dict_key
            "Labor Force" = Raise e).
Proof.
  split_and!.
  - repeat constructor.
  - by vm_compute.
  - intros [e He]. by vm_compute in He.
Qed.

(** C4, amended: on a list of series whose identifiers are keys of the
    table, [find_trended_data] returns the ['data'] of the first series in
    list order whose label is the given one, and returns [None], raising no
    error, when no series has that label. *)
Theorem find_trended_data_first (dk : gmap string string) (key : string)
    (items : list json) :
  Forall (known dk) items →
  (∀ pre item post,
     items = (pre ++ item :: post)%list →
     Forall (λ i, has_label dk key i = false) pre →
     has_label dk key item = true →
     find_trended_data (JArr items) dk key = subscript item "data") ∧
  (Forall (λ i, has_label dk key i = false) items →
     find_trended_data (JArr items) dk key = Ok JNull).
Proof.
  intros Hk. split.
  - intros pre item post -> Hn Hl. unfold find_trended_data. simpl.
    apply scan_trended_first; [|done..].
    by apply Forall_app in Hk as [? _].
  - intros Hn. unfold find_trended_data. simpl. by apply scan_trended_none.
Qed.

Lemma find_trended_data_first_witness :
  (∀ pre item post,
     [unemployment_level_series; labor_force_series]
     = (pre ++ item :: post)%list →
     Forall (λ i, has_label data_dict_key "Labor Force" i = false) pre →
     has_label data_dict_key "Labor Force" item = true →
     find_trended_data (JArr [unemployment_level_series; labor_force_series])
       data_dict_key "Labor Force" = subscript item "data") ∧
  (Forall (λ i, has_label data_dict_key "Labor Force" i = false)
     [unemployment_level_series; labor_force_series] →
     find_trended_data (JArr [unemployment_level_series; labor_force_series])
       data_dict_key "Labor Force" = Ok JNull).
Proof.
  apply (find_trended_data_first data_dict_key "Labor Force"
           [unemployment_level_series; labor_force_series]).
  repeat constructor.
  - eexists _, "LNS13000000". split; [reflexivity|].
    split; [by vm_compute | eexists; by vm_compute].
  - eexists _, "JTS000000000000000JOL". split; [reflexivity|].
    split; [by vm_compute | eexists; by vm_compute].
Defined.

(** The value the script gets for the label ["Labor Force"] on the sample
    answer: the observation sequence of the second series. *)
Lemma find_trended_data_labor_force :
  find_trended_data (JArr [unemployment_level_series; labor_force_series])
    data_dict_key "Labor Force"
  = Ok (JArr [ observation_of "2023" "M03" "March" "9000" (Some "true");
               observation_of "2023" "M01" "January" "9900" None ]).
Proof. by vm_compute. Qed.

(** ** The Renderer: speaker notes *)

(** [s] is a prefix of [t]. *)
Fixpoint is_prefix (s t : string) : bool :=
  match s, t with
  | EmptyString, _ => true
  | String a s', String b t' => bool_decide (a = b) && is_prefix s' t'
  | String _ _, EmptyString => false
  end.

(** The text [t] contains [s]. *)
Fixpoint contains (t s : string) : bool :=
  is_prefix s t ||
  match t with
  | EmptyString => false
  | String _ t' => contains t' s
  end.

Section Notes.

Implicit Types (s t pre post : string).

Lemma is_prefix_spec s t : is_prefix s t = true ↔ ∃ post, t = s ++ post.
Proof.
  revert t. induction s as [|a s IH]; intros t; simpl.
  - split; [intros _; by exists t | done].
  - destruct t as [|b t]; simpl.
    + split; [done | by intros [post H]].
    + rewrite andb_true_iff, bool_decide_eq_true, IH. split.
      * intros [-> [post ->]]. by exists post.
      * intros [post H]. rewrite append_cons in H.
        injection H as -> ->. eauto.
Qed.

Lemma contains_spec t s :
  contains t s = true ↔ ∃ pre post, t = pre ++ s ++ post.
Proof.
  induction t as [|b t IH]; simpl; rewrite orb_true_iff, is_prefix_spec.
  - split.
    + intros [[post H]|]; [|done]. by exists "", post.
    + intros (pre & post & H). left.
      destruct pre; [by exists post | by rewrite append_cons in H].
  - rewrite IH. split.
    + intros [[post H]|(pre & post & ->)].
      * by exists "", post.
      * by exists (String b pre), post.
    + intros (pre & post & H). destruct pre as [|c pre].
      * left. by exists post.
      * right. rewrite append_cons in H. injection H as -> ->. eauto.
Qed.

Lemma contains_middle pre s post : contains (pre ++ s ++ post) s = true.
Proof. apply contains_spec. eauto. Qed.

End Notes.

(** The entries of [Lvals_dict] for the sample values of the two series. *)
Definition URT_sample : json * json := (JStr "3.7", JStr "March-2024").
Definition AHE_sample : json * json := (JStr "34.75", JStr "February-2024").

(** C9, as stated, fails: the notes hold the two period labels and neither
    of the raw values. *)
Lemma notes_text_without_values :
  notes_text URT_sample AHE_sample
  = Ok (JStr ("Unemployment Rate Data: March-2024" ++ newline
              ++ "Avg Hourly Earnings Data: February-2024")) ∧
  contains ("Unemployment Rate Data: March-2024" ++ newline
            ++ "Avg Hourly Earnings Data: February-2024") "3.7" = false ∧
  contains ("Unemployment Rate Data: March-2024" ++ newline
            ++ "Avg Hourly Earnings Data: February-2024") "34.75" = false.
Proof. split_and!; by vm_compute. Qed.

(** C9, amended: for every pair of latest-value records the notes are two
    lines, each a fixed caption followed by the period label of one record;
    both labels occur in the text, and the raw values play no part in it. *)
Theorem notes_text_labels (v1 v2 : json) (l1 l2 : string) :
  let text := ("Unemployment Rate Data: " ++ l1) ++ newline
              ++ ("Avg Hourly Earnings Data: " ++ l2) in
  notes_text (v1, JStr l1) (v2, JStr l2) = Ok (JStr text) ∧
  contains text l1 = true ∧ contains text l2 = true ∧
  ∀ w1 w2, notes_text (w1, JStr l1) (w2, JStr l2)
           = notes_text (v1, JStr l1) (v2, JStr l2).
Proof.
  intros text. split_and!.
  - unfold notes_text, text. simpl. by rewrite !append_assoc.
  - unfold text. rewrite append_assoc. apply contains_middle.
  - unfold text.
    replace (("Unemployment Rate Data: " ++ l1) ++ newline
             ++ "Avg Hourly Earnings Data: " ++ l2)
      with ((("Unemployment Rate Data: " ++ l1) ++ newline
             ++ "Avg Hourly Earnings Data: ") ++ l2 ++ "").
    + apply contains_middle.
    + rewrite !append_assoc. do 4 f_equal.
      clear. induction l2 as [|a l2 IH]; [done|]. by rewrite append_cons, IH.
  - done.
Qed.

(** The label of a latest-value record is always text. *)
Lemma add_str_Ok (a b c : json) : add_str a b = Ok c → ∃ t, c = JStr t.
Proof. destruct a, b; simpl; try done. intros [= <-]. eauto. Qed.

Lemma find_latest_value_label (s sid v l : json) :
  find_latest_value s = Ok (sid, v, l) → ∃ t, l = JStr t.
Proof.
  unfold find_latest_value.
  repeat match goal with
         | |- context [mbind _ ?c] =>
             destruct c eqn:?; simpl; [|done..]
         end.
  intros [= <- <- <-]. by eapply add_str_Ok.
Qed.

(** The notes for a full answer with the four series of the script. *)
Definition sample_answer : json :=
  JObj {[ "Results" :=
    JObj {[ "series" := JArr
      [ unemployment_level_series;
        labor_force_series;
        series "CES0500000003"
          [observation_of "2024" "M02" "February" "34.75" (Some "true")];
        series "LNS14000000" [february_2024; march_2024] ] ]} ]}.

Lemma speaker_notes_sample :
  speaker_notes sample_answer
  = Ok (JStr ("Unemployment Rate Data: March-2024" ++ newline
              ++ "Avg Hourly Earnings Data: February-2024")).
Proof. by vm_compute. Qed.

(** ** The Reshaper: the join *)

Abbreviation join_key := (string * string * string)%type.

(** The keys of a frame, and the keys two frames share. *)
Definition keys (A : list obs_row) : list join_key := key_of <$> A.

Definition common_keys (A B : list obs_row) : gset join_key :=
  list_to_set (keys A) ∩ list_to_set (keys B).

(** The (year, period) pairs two frames share, period names left aside. *)
Definition year_period (r : obs_row) : string * string :=
  (o_year r, o_period r).

Definition common_year_period (A B : list obs_row) : gset (string * string) :=
  list_to_set (year_period <$> A) ∩ list_to_set (year_period <$> B).

Section Join.

Implicit Types (A B : list obs_row) (a b : obs_row) (r : merged_row)
  (k : join_key).

Lemma m_key_of_join_rows a b : m_key_of (join_rows a b) = key_of a.
Proof. done. Qed.

Lemma merge_cons a A B :
  merge (a :: A) B
  = ((join_rows a <$> filter (λ b, key_of b = key_of a) B) ++ merge A B)%list.
Proof. done. Qed.

(** The rows of the join are the pairs of rows with the same key. *)
Lemma elem_of_merge r A B :
  r ∈ merge A B ↔
  ∃ a b, a ∈ A ∧ b ∈ B ∧ key_of b = key_of a ∧ r = join_rows a b.
Proof.
  unfold merge. rewrite list_elem_of_bind. split.
  - intros (a & Hr & Ha). apply list_elem_of_fmap in Hr as (b & -> & Hb).
    apply list_elem_of_filter in Hb as [Hk Hb]. by exists a, b.
  - intros (a & b & Ha & Hb & Hk & ->). exists a. split; [|done].
    apply list_elem_of_fmap. exists b. split; [done|].
    by apply list_elem_of_filter.
Qed.

(** A key is in the join exactly when both frames have it. *)
Lemma elem_of_merge_keys k A B :
  k ∈ m_key_of <$> merge A B ↔ k ∈ keys A ∧ k ∈ keys B.
Proof.
  unfold keys. rewrite !list_elem_of_fmap. split.
  - intros (r & -> & Hr). apply elem_of_merge in Hr as (a & b & ? & ? & Hk & ->).
    rewrite m_key_of_join_rows. split; [by exists a | by exists b].
  - intros [(a & -> & Ha) (b & Hk & Hb)]. exists (join_rows a b).
    split; [done|]. apply elem_of_merge. by exists a, b.
Qed.

(** With distinct keys on the right, a left row meets at most one row. *)
Lemma length_filter_key k B :
  NoDup (keys B) →
  length (filter (λ b, key_of b = k) B)
  = if decide (k ∈ keys B) then 1%nat else 0%nat.
Proof.
  unfold keys. induction B as [|b B IH]; intros Hnd; [done|].
  rewrite fmap_cons in *. apply NoDup_cons in Hnd as [Hb Hnd].
  rewrite filter_cons. specialize (IH Hnd).
  destruct (decide (key_of b = k)) as [<-|Hne].
  - simpl. rewrite IH. rewrite decide_False by done.
    by rewrite decide_True by apply list_elem_of_here.
  - rewrite IH. destruct (decide (k ∈ key_of <$> B)) as [Hin|Hnin].
    + by rewrite decide_True by (by apply list_elem_of_further).
    + rewrite decide_False; [done|].
      rewrite elem_of_cons. by intros [->|?].
Qed.

Lemma length_merge_filter A B :
  NoDup (keys B) →
  length (merge A B) = length (filter (λ a, key_of a ∈ keys B) A).
Proof.
  intros Hnd. induction A as [|a A IH]; [done|].
  rewrite merge_cons, length_app, length_fmap, length_filter_key, IH by done.
  rewrite filter_cons. by destruct (decide (key_of a ∈ keys B)).
Qed.

Lemma filter_keys A (K : list join_key) :
  key_of <$> filter (λ a, key_of a ∈ K) A = filter (λ k, k ∈ K) (keys A).
Proof.
  unfold keys. induction A as [|a A IH]; [done|].
  rewrite fmap_cons, !filter_cons.
  destruct (decide (key_of a ∈ K)); by rewrite ?fmap_cons, IH.
Qed.

Lemma common_keys_filter A B :
  common_keys A B = list_to_set (filter (λ k, k ∈ keys B) (keys A)).
Proof.
  unfold common_keys. apply set_eq. intros k.
  rewrite elem_of_intersection, !elem_of_list_to_set, list_elem_of_filter.
  tauto.
Qed.

End Join.

(** C7: joining [A] with [B] and [B] with [A] gives the same set of
    (year, period, periodName) keys. *)
Theorem merge_keys_symmetric (A B : list obs_row) :
  list_to_set (m_key_of <$> merge A B)
  =@{gset join_key} list_to_set (m_key_of <$> merge B A).
Proof.
  apply set_eq. intros k.
  rewrite !elem_of_list_to_set, !elem_of_merge_keys. tauto.
Qed.

(** Two frames that repeat one key, and two frames that agree on the year
    and the period code of a row but not on its period name. *)
Definition repeated_key_frame : list obs_row :=
  [ ObsRow "2023" "M01" "January" "5700";
    ObsRow "2023" "M01" "January" "5710" ].

Definition january_frame : list obs_row :=
  [ ObsRow "2023" "M01" "January" "5700" ].

Definition jan_frame : list obs_row :=
  [ ObsRow "2023" "M01" "Jan" "9900" ].

(** C5, as stated, fails: a repeated key gives more rows than either frame
    has, and rows that share year and period but not the period name are
    not joined. *)
Lemma merge_length_not_bounded :
  (length (merge repeated_key_frame repeated_key_frame) = 4
   ∧ length repeated_key_frame = 2
   ∧ size (common_year_period repeated_key_frame repeated_key_frame) = 1)%nat
  ∧
  (length (merge january_frame jan_frame) = 0
   ∧ size (common_year_period january_frame jan_frame) = 1)%nat.
Proof. split_and!; by vm_compute. Qed.

(** C5, amended: for all frames, the keys of the join are exactly the
    keys present in both frames, so every row of the join has a key of both
    frames and a row whose key is in one frame only is dropped; when no key
    (year, period, periodName) is repeated within either frame, the join has
    as many rows as the two frames have keys in common, which is at most
    the length of each frame. *)
Theorem merge_length (A B : list obs_row) :
  (∀ k, k ∈ m_key_of <$> merge A B ↔ k ∈ keys A ∧ k ∈ keys B) ∧
  (∀ r, r ∈ merge A B → m_key_of r ∈ keys A ∧ m_key_of r ∈ keys B) ∧
  (∀ a, a ∈ A → key_of a ∉ keys B → key_of a ∉ m_key_of <$> merge A B) ∧
  (∀ b, b ∈ B → key_of b ∉ keys A → key_of b ∉ m_key_of <$> merge A B) ∧
  (NoDup (keys A) → NoDup (keys B) →
   length (merge A B) = size (common_keys A B) ∧
   (length (merge A B) ≤ length A `min` length B)%nat).
Proof.
  split_and!.
  - intros k. apply elem_of_merge_keys.
  - intros r Hr. apply elem_of_merge_keys. by apply list_elem_of_fmap_2.
  - intros a _ Hn [_ ?]%elem_of_merge_keys. done.
  - intros b _ Hn [? _]%elem_of_merge_keys. done.
  - intros HA HB.
    assert (length (merge A B) = size (common_keys A B)) as Hsize.
    { rewrite common_keys_filter, size_list_to_set by by apply NoDup_filter.
      by rewrite length_merge_filter, <- filter_keys, length_fmap. }
    split; [done|]. apply Nat.min_glb.
    + rewrite length_merge_filter by done. apply length_filter.
    + rewrite Hsize, common_keys_filter, size_list_to_set
        by by apply NoDup_filter.
      rewrite <- (length_fmap key_of B). apply submseteq_length.
      apply NoDup_submseteq; [by apply NoDup_filter|].
      by intros k [? _]%list_elem_of_filter.
Qed.

(** Three months against two: no key is repeated, and the join has the two
    rows of the keys in common. *)
Lemma merge_length_witness :
  let A := [ ObsRow "2023" "M01" "January" "5700";
             ObsRow "2023" "M02" "February" "5900";
             ObsRow "2023" "M03" "March" "6000" ] in
  let B := [ ObsRow "2023" "M01" "January" "9900";
             ObsRow "2023" "M03" "March" "9000" ] in
  length (merge A B) = size (common_keys A B) ∧
  (length (merge A B) ≤ length A `min` length B)%nat.
Proof.
  intros A B. apply (merge_length A B).
  - apply (bool_decide_unpack _). by vm_compute.
  - apply (bool_decide_unpack _). by vm_compute.
Defined.

(** ** The Reshaper: months, dates and the sort *)

(** The twelve English month names, in calendar order. *)
Definition calendar : list string :=
  [ "January"; "February"; "March"; "April"; "May"; "June"; "July";
    "August"; "September"; "October"; "November"; "December" ].

Section Sort.

Implicit Types (r : merged_row) (t : trend_row) (rows out : list trend_row).

#[local] Instance na_last_le_total : Total na_last_le.
Proof. intros [a|] [b|]; simpl; try tauto. lia. Qed.

#[local] Instance na_last_le_trans : Transitive na_last_le.
Proof. intros [a|] [b|] [c|]; simpl; try tauto. lia. Qed.

#[local] Instance row_le_total : Total row_le.
Proof. intros t1 t2. apply na_last_le_total. Qed.

#[local] Instance row_le_trans : Transitive row_le.
Proof. intros t1 t2 t3. apply na_last_le_trans. Qed.

(** In a sorted list consecutive elements are in order. *)
Lemma Sorted_adjacent {A : Type} (R : relation A) (l : list A) (i : nat)
    (x y : A) :
  Sorted R l → l !! i = Some x → l !! S i = Some y → R x y.
Proof.
  intros Hs. revert i. induction Hs as [|z l Hs IH Hhd]; intros i Hx Hy.
  - done.
  - destruct i as [|i]; simpl in *.
    + injection Hx as ->. destruct Hhd as [|w l Hzw]; [done|].
      simpl in Hy. by injection Hy as ->.
    + by eapply IH.
Qed.

Lemma sort_values_sorted rows : Sorted row_le (sort_values rows).
Proof. apply Sorted_merge_sort, _. Qed.

Lemma sort_values_Permutation rows : sort_values rows ≡ₚ rows.
Proof. apply merge_sort_Permutation. Qed.

(** What a successful loop over the rows returns. *)
Lemma mapM_Ok_elem {A B : Type} (f : A → outcome B) (l : list A)
    (k : list B) (y : B) :
  mapM f l = Ok k → y ∈ k → ∃ x, x ∈ l ∧ f x = Ok y.
Proof.
  revert k. induction l as [|x l IH]; intros k; simpl.
  - intros [= <-] Hy. by apply elem_of_nil in Hy.
  - destruct (f x) as [z| |] eqn:Hfx; simpl; [|done..].
    destruct (mapM f l) as [k'| |]; simpl; [|done..].
    intros [= <-] [->|Hy]%elem_of_cons.
    + exists x. split; [left|done].
    + destruct (IH k' eq_refl Hy) as (x' & ? & ?). exists x'.
      split; [by right|done].
Qed.

Lemma mapM_Ok_length {A B : Type} (f : A → outcome B) (l : list A)
    (k : list B) :
  mapM f l = Ok k → length k = length l.
Proof.
  revert k. induction l as [|x l IH]; intros k; simpl.
  - by intros [= <-].
  - destruct (f x) as [z| |]; simpl; [|done..].
    destruct (mapM f l) as [k'| |]; simpl; [|done..].
    intros [= <-]. simpl. by rewrite (IH k').
Qed.

(** The months of the table are the numbers from 1 to 12. *)
Lemma month_map_range (name : string) (k : Z) :
  month_map !! name = Some k → (1 ≤ k ≤ 12)%Z.
Proof.
  unfold month_map. rewrite <- elem_of_list_to_map
    by (apply (bool_decide_unpack _); by vm_compute).
  rewrite !elem_of_cons, elem_of_nil.
  intros H. repeat destruct H as [H|H]; try done; injection H as _ ->; lia.
Qed.

(** The date of a row whose month comes from the table. *)
Lemma to_datetime_month_map (y name : string) :
  to_datetime y (month_map !! name) =
  n ← to_numeric y ;
  if bool_decide (1678 ≤ n ≤ 2261)%Z
  then Ok ((λ k, n * 10000 + k * 100 + 1)%Z <$> month_map !! name)
  else Unmodelled.
Proof.
  unfold to_datetime. destruct (to_numeric y) as [n| |]; simpl; [|done..].
  case_bool_decide; [|done].
  destruct (month_map !! name) as [k|] eqn:Hk; simpl; [|done].
  by rewrite bool_decide_eq_true_2 by by eapply month_map_range.
Qed.

(** The derived columns of a row. *)
Lemma derive_Ok r t :
  derive r = Ok t →
  periodName t = m_periodName r ∧ year t = m_year r ∧
  month t = month_map !! m_periodName r ∧
  pdnamelist t = m_periodName r ++ "-" ++ m_year r ∧
  (date t = None ↔ month t = None).
Proof.
  unfold derive. rewrite to_datetime_month_map. simpl.
  destruct (to_numeric (m_year r)) as [n| |]; simpl; [|done..].
  case_bool_decide; simpl; [|done]. intros [= <-]. simpl.
  by destruct (month_map !! m_periodName r).
Qed.

(** The rows of the output are the derived rows of the join. *)
Lemma Reshaper_Ok_elem (A B : list obs_row) out t :
  Reshaper A B = Ok out → t ∈ out →
  ∃ r, r ∈ merge A B ∧ derive r = Ok t.
Proof.
  unfold Reshaper. simpl.
  destruct (mapM derive (merge A B)) as [k| |] eqn:Hk; simpl; [|done..].
  intros [= <-] Ht. rewrite sort_values_Permutation in Ht.
  by eapply mapM_Ok_elem.
Qed.

Lemma Reshaper_Ok_sorted (A B : list obs_row) out :
  Reshaper A B = Ok out → Sorted row_le out.
Proof.
  unfold Reshaper. simpl.
  destruct (mapM derive (merge A B)) as [k| |]; simpl; [|done..].
  intros [= <-]. apply sort_values_sorted.
Qed.

Lemma Reshaper_Ok_length (A B : list obs_row) out :
  Reshaper A B = Ok out → length out = length (merge A B).
Proof.
  unfold Reshaper. simpl.
  destruct (mapM derive (merge A B)) as [k| |] eqn:Hk; simpl; [|done..].
  intros [= <-]. rewrite sort_values_Permutation.
  by eapply mapM_Ok_length.
Qed.

End Sort.

(** *** The rows of the table *)

Section Rows.

Implicit Types (A B : list obs_row) (a b : obs_row) (r : merged_row)
  (t : trend_row) (out : list trend_row).

Lemma mapM_Ok_elem_inv {X Y : Type} (f : X → outcome Y) (l : list X)
    (k : list Y) (x : X) :
  mapM f l = Ok k → x ∈ l → ∃ y, y ∈ k ∧ f x = Ok y.
Proof.
  revert k. induction l as [|z l IH]; intros k; simpl.
  - intros _ Hx. by apply elem_of_nil in Hx.
  - destruct (f z) as [w| |] eqn:Hfz; simpl; [|done..].
    destruct (mapM f l) as [k'| |]; simpl; [|done..].
    intros [= <-] [->|Hx]%elem_of_cons.
    + exists w. split; [left|done].
    + destruct (IH k' eq_refl Hx) as (y & ? & ?). exists y.
      split; [by right|done].
Qed.

Lemma mapM_Ok_exists {X Y : Type} (f : X → outcome Y) (l : list X) :
  Forall (λ x, ∃ y, f x = Ok y) l → ∃ k, mapM f l = Ok k.
Proof.
  induction 1 as [|x l [y Hy] _ [k Hk]]; simpl; [by eexists|].
  rewrite Hy. simpl. rewrite Hk. simpl. by eexists.
Qed.

Lemma derive_Ok_cells r t :
  derive r = Ok t →
  year t = m_year r ∧ period t = m_period r ∧
  periodName t = m_periodName r ∧
  value_UEL t = m_value_UEL r ∧ value_LB t = m_value_LB r.
Proof.
  unfold derive. destruct (to_datetime _ _) as [d| |]; simpl; [|done..].
  by intros [= <-].
Qed.

Lemma derive_Ok_date r t :
  derive r = Ok t →
  ∃ n, to_numeric (year t) = Ok n ∧
       date t = (λ k, n * 10000 + k * 100 + 1)%Z <$> month t.
Proof.
  unfold derive. rewrite to_datetime_month_map.
  destruct (to_numeric (m_year r)) as [n| |] eqn:Hn; simpl; [|done..].
  case_bool_decide; simpl; [|done]. intros [= <-]. simpl.
  by exists n.
Qed.

(** With years the model dates, every row of the join is derived. *)
Lemma derive_Ok_of_year r n :
  to_numeric (m_year r) = Ok n → (1678 ≤ n ≤ 2261)%Z →
  ∃ t, derive r = Ok t.
Proof.
  intros Hn Hrange. unfold derive. rewrite to_datetime_month_map, Hn. simpl.
  rewrite bool_decide_eq_true_2 by done. simpl. by eexists.
Qed.

Lemma Reshaper_Ok_of_years A B :
  Forall (λ a, ∃ n, to_numeric (o_year a) = Ok n ∧ (1678 ≤ n ≤ 2261)%Z) A →
  ∃ out, Reshaper A B = Ok out.
Proof.
  intros HA.
  destruct (mapM_Ok_exists derive (merge A B)) as [k Hk].
  { apply Forall_forall. intros r (a & b & Ha & _ & _ & ->)%elem_of_merge.
    rewrite Forall_forall in HA. destruct (HA a Ha) as (n & Hn & Hrange).
    by apply (derive_Ok_of_year _ n). }
  exists (sort_values k). unfold Reshaper. by rewrite Hk.
Qed.

Lemma Reshaper_Ok_elem_inv A B out r :
  Reshaper A B = Ok out → r ∈ merge A B → ∃ t, t ∈ out ∧ derive r = Ok t.
Proof.
  unfold Reshaper. simpl.
  destruct (mapM derive (merge A B)) as [k| |] eqn:Hk; simpl; [|done..].
  intros [= <-] Hr.
  destruct (mapM_Ok_elem_inv derive _ k r Hk Hr) as (t & Ht & Hd).
  exists t. split; [|done]. by rewrite sort_values_Permutation.
Qed.

End Rows.

(** *** The month table *)

Lemma month_map_spec (name : string) (n : Z) :
  month_map !! name = Some n ↔
  (1 ≤ n)%Z ∧ calendar !! Z.to_nat (n - 1) = Some name.
Proof.
  unfold month_map. rewrite <- elem_of_list_to_map
    by (apply (bool_decide_unpack _); by vm_compute).
  split.
  - rewrite !elem_of_cons, elem_of_nil.
    intros H. repeat destruct H as [H|H]; try done;
      injection H as -> ->; by split.
  - intros [Hn Hc]. remember (Z.to_nat (n - 1)) as i eqn:Hi.
    assert (n = Z.of_nat i + 1)%Z as -> by lia. clear Hn Hi.
    do 12 (destruct i as [|i];
           [injection Hc as <-; repeat constructor|]).
    done.
Qed.

Lemma month_map_is_Some (name : string) :
  is_Some (month_map !! name) ↔ name ∈ calendar.
Proof.
  split.
  - intros [n [_ Hc]%month_map_spec]. by eapply list_elem_of_lookup_2.
  - intros [i Hi]%list_elem_of_lookup_1. exists (Z.of_nat i + 1)%Z.
    apply month_map_spec. split; [lia|].
    by replace (Z.to_nat (Z.of_nat i + 1 - 1)) with i by lia.
Qed.

(** A frame with a yearly average next to a month. *)
Definition annual_frame : list obs_row :=
  [ ObsRow "2023" "M13" "Annual" "6100";
    ObsRow "2023" "M01" "January" "5700" ].

Definition annual_row : trend_row :=
  TrendRow "2023" "M13" "Annual" "6100" "6100" None None "Annual-2023".

Definition january_row : trend_row :=
  TrendRow "2023" "M01" "January" "5700" "5700" (Some 1%Z) (Some 20230101%Z)
    "January-2023".

(** C3, as stated, fails: a period name outside the table gives a row
    without month and without date, and the Reshaper returns its table; it
    does not fail with a [DataShapeError]. *)
Lemma Reshaper_keeps_unknown_period :
  month_map !! "Annual" = None ∧
  Reshaper annual_frame annual_frame = Ok [january_row; annual_row] ∧
  ¬ fails_with (Reshaper annual_frame annual_frame) "DataShapeError".
Proof.
  split_and!; [by vm_compute | by vm_compute |].
  intros (e & He & _). by vm_compute in He.
Qed.

(** C3, amended: the month table is defined on exactly the twelve English
    month names, January to 1 through December to 12; a row with any other
    period name is not an error: when the years of the first frame are
    plain decimal numbers from 1678 to 2261, the Reshaper returns its table
    and so does not fail with a [DataShapeError], and every pair of joined
    rows with such a period name is a row of that table, with its key and
    its two values, without month and without date. *)
Theorem month_map_calendar :
  (∀ name n, month_map !! name = Some n ↔
             (1 ≤ n)%Z ∧ calendar !! Z.to_nat (n - 1) = Some name) ∧
  (∀ name, is_Some (month_map !! name) ↔ name ∈ calendar) ∧
  (∀ A B,
     Forall (λ a, ∃ n, to_numeric (o_year a) = Ok n ∧ (1678 ≤ n ≤ 2261)%Z) A →
     ∃ out, Reshaper A B = Ok out ∧
       ¬ fails_with (Reshaper A B) "DataShapeError" ∧
       ∀ a b, a ∈ A → b ∈ B → key_of b = key_of a →
              o_periodName a ∉ calendar →
              ∃ t, t ∈ out ∧
                   (year t, period t, periodName t) = key_of a ∧
                   value_UEL t = o_value a ∧ value_LB t = o_value b ∧
                   month t = None ∧ date t = None).
Proof.
  split_and!.
  - apply month_map_spec.
  - apply month_map_is_Some.
  - intros A B HA. destruct (Reshaper_Ok_of_years A B HA) as [out Hout].
    exists out. split; [done|]. split.
    { rewrite Hout. by intros (e & [=] & _). }
    intros a b Ha Hb Hk Hpn.
    destruct (Reshaper_Ok_elem_inv A B out (join_rows a b) Hout)
      as (t & Ht & Hd).
    { apply elem_of_merge. by exists a, b. }
    pose proof (derive_Ok _ _ Hd) as (_ & _ & Hm & _ & Hdate).
    apply derive_Ok_cells in Hd as (Hy & Hp & Hn & Hu & Hl).
    assert (month t = None) as Hnone.
    { rewrite Hm. apply eq_None_not_Some. by rewrite month_map_is_Some. }
    exists t. rewrite Hy, Hp, Hn, Hu, Hl.
    split_and!; try done. by apply Hdate.
Qed.

(** *** The sort *)

(** C8, as stated, fails: a row whose period name is not a month has no
    date, is sorted last, and its date is not above that of the row before
    it. *)
Lemma Reshaper_output_with_NaT :
  Reshaper annual_frame annual_frame = Ok [january_row; annual_row] ∧
  [january_row; annual_row] !! 0%nat = Some january_row ∧
  [january_row; annual_row] !! 1%nat = Some annual_row ∧
  ¬ date_le (date january_row) (date annual_row).
Proof. split_and!; [by vm_compute | done | done | by intros []]. Qed.

(** C8, amended: in the output of the Reshaper the rows with a date come
    in ascending order of date and the rows without a date come last: for
    adjacent rows [r1], [r2], either [r2] has no date or both have one and
    the date of [r1] is at most that of [r2]; when every period name of the
    output is a month name, the date of [r1] is at most that of [r2] for
    all adjacent rows. *)
Theorem Reshaper_sorted (A B : list obs_row) (out : list trend_row) :
  Reshaper A B = Ok out →
  (∀ i r1 r2, out !! i = Some r1 → out !! S i = Some r2 →
              date r2 = None ∨ date_le (date r1) (date r2)) ∧
  ((∀ t, t ∈ out → periodName t ∈ calendar) →
   ∀ i r1 r2, out !! i = Some r1 → out !! S i = Some r2 →
              date_le (date r1) (date r2)).
Proof.
  intros Hout.
  assert (∀ i r1 r2, out !! i = Some r1 → out !! S i = Some r2 →
            date r2 = None ∨ date_le (date r1) (date r2)) as Hadj.
  { intros i r1 r2 H1 H2.
    pose proof (Sorted_adjacent row_le out i r1 r2
                  (Reshaper_Ok_sorted A B out Hout) H1 H2) as Hle.
    unfold row_le in Hle.
    destruct (date r1) as [d1|], (date r2) as [d2|]; simpl in *; auto. }
  split; [done|]. intros Hcal i r1 r2 H1 H2.
  destruct (Hadj i r1 r2 H1 H2) as [Hnone|]; [|done]. exfalso.
  assert (r2 ∈ out) as Hin by by eapply list_elem_of_lookup_2.
  destruct (Reshaper_Ok_elem A B out r2 Hout Hin) as (r & _ & Hr).
  apply derive_Ok in Hr as (Hpn & _ & Hm & _ & Hd).
  apply Hd in Hnone. rewrite Hm, <- Hpn in Hnone.
  apply eq_None_not_Some in Hnone. apply Hnone, month_map_is_Some. auto.
Qed.

Definition UEL_frame : list obs_row :=
  [ ObsRow "2023" "M03" "March" "6000";
    ObsRow "2023" "M02" "February" "5900";
    ObsRow "2023" "M01" "January" "5700" ].

Definition LF_frame : list obs_row :=
  [ ObsRow "2023" "M03" "March" "9000";
    ObsRow "2023" "M01" "January" "9900" ].

Definition sample_table : list trend_row :=
  [ TrendRow "2023" "M01" "January" "5700" "9900" (Some 1%Z)
      (Some 20230101%Z) "January-2023";
    TrendRow "2023" "M03" "March" "6000" "9000" (Some 3%Z)
      (Some 20230301%Z) "March-2023" ].

Lemma Reshaper_sorted_witness :
  (∀ i r1 r2, sample_table !! i = Some r1 → sample_table !! S i = Some r2 →
              date r2 = None ∨ date_le (date r1) (date r2)) ∧
  ((∀ t, t ∈ sample_table → periodName t ∈ calendar) →
   ∀ i r1 r2, sample_table !! i = Some r1 → sample_table !! S i = Some r2 →
              date_le (date r1) (date r2)).
Proof.
  apply (Reshaper_sorted UEL_frame LF_frame sample_table). by vm_compute.
Defined.

(** *** From the answer of the API to the table *)

(** C6: with observations for January, February and March 2023 in the
    first series and for January and March 2023 in the second, whatever the
    values, the table has exactly two rows, January-2023 then March-2023,
    and no row for February-2023. *)
Theorem trended_table_scenario (a1 a2 a3 b1 b3 : string) :
  let A := series "LNS13000000"
             [ observation_of "2023" "M03" "March" a3 (Some "true");
               observation_of "2023" "M02" "February" a2 None;
               observation_of "2023" "M01" "January" a1 None ] in
  let B := series "JTS000000000000000JOL"
             [ observation_of "2023" "M03" "March" b3 (Some "true");
               observation_of "2023" "M01" "January" b1 None ] in
  ∃ out, trended_table (JArr [A; B]) = Ok out ∧
         length out = 2%nat ∧
         pdnamelist <$> out = ["January-2023"; "March-2023"] ∧
         ("February-2023" ∉ pdnamelist <$> out) ∧
         date <$> out = [Some 20230101%Z; Some 20230301%Z] ∧
         value_UEL <$> out = [a1; a3] ∧
         value_LB <$> out = [b1; b3].
Proof.
  intros A B. eexists. split; [by vm_compute|].
  split_and!; try done.
  simpl. rewrite !elem_of_cons, elem_of_nil. by intros [|[|]].
Qed.

(** * Further properties of the script *)

(** ** What a returned latest value tells about the series *)

Section ExtractorInversion.

Implicit Types (items pre post : list json) (e item s sid v l : json).

(** The loop ends either at its first flagged entry or, having seen only
    unflagged [dict] entries, with [None]. *)
Lemma scan_latest_Ok items e :
  scan_latest items = Ok e →
  (e = JNull ∧ Forall (λ i, is_dict i = true) items
   ∧ Forall (λ i, is_latest i = false) items) ∨
  (∃ pre post, items = (pre ++ e :: post)%list
               ∧ Forall (λ i, is_dict i = true) pre
               ∧ Forall (λ i, is_latest i = false) pre
               ∧ is_latest e = true).
Proof.
  revert e. induction items as [|item items IH]; intros e; simpl.
  - intros [= <-]. left. by split_and!.
  - destruct item as [| | | | |d]; simpl; try done.
    destruct (eq_str (default JNull (d !! "latest")) "true") eqn:Hl.
    + intros [= <-]. right. exists [], items. by split_and!.
    + intros [(-> & Hd & Hn)|(pre & post & -> & Hd & Hn & He)]%IH.
      * left. split_and!; [done | by constructor | by constructor].
      * right. exists (JObj d :: pre), post.
        split_and!; [done | by constructor | by constructor | done].
Qed.

Lemma subscript_Ok obj key v :
  subscript obj key = Ok v → ∃ d, obj = JObj d ∧ d !! key = Some v.
Proof.
  destruct obj as [| | | | |d]; simpl; try done.
  destruct (d !! key) as [w|] eqn:Hw; [|done]. intros [= <-]. eauto.
Qed.

Lemma add_str_Ok_inv a b c :
  add_str a b = Ok c → ∃ x y, a = JStr x ∧ b = JStr y ∧ c = JStr (x ++ y).
Proof. destruct a, b; simpl; try done. intros [= <-]. eauto. Qed.

(** Iterating over anything but a list gives keys or characters, none of
    which is a [dict]. *)
Lemma iterate_not_list data items :
  iterate data = Ok items → (∀ xs : list json, data ≠ JArr xs) →
  Forall (λ i, is_dict i = false) items.
Proof.
  destruct data as [| | |t|xs|d]; simpl; try done.
  - intros [= <-] _. induction t as [|a t IH]; simpl; by constructor.
  - intros _ Hl. by destruct (Hl xs).
  - intros [= <-] _. apply Forall_fmap, Forall_forall. by intros k _.
Qed.

End ExtractorInversion.

(** X1: whenever [find_latest_value] returns, its argument is a series
    object whose ['data'] is a list, the list splits at its first flagged
    entry, every entry before it is an unflagged [dict], and the result is
    the identifier, that entry's value and its period label. *)
Theorem find_latest_value_Ok_inv (s sid v l : json) :
  find_latest_value s = Ok (sid, v, l) →
  ∃ items pre e post pn y,
    series_of s sid items ∧ items = (pre ++ e :: post)%list ∧
    Forall (λ i, is_dict i = true) pre ∧
    Forall (λ i, is_latest i = false) pre ∧
    is_latest e = true ∧ entry e v pn y ∧ l = JStr (pn ++ "-" ++ y).
Proof.
  unfold find_latest_value.
  destruct (subscript s "data") as [data| |] eqn:Hdata; simpl; [|done..].
  apply subscript_Ok in Hdata as (d & -> & Hdata).
  destruct (iterate data) as [items| |] eqn:Hit; simpl; [|done..].
  destruct (scan_latest items) as [e| |] eqn:Hscan; simpl; [|done..].
  destruct (d !! "seriesID") as [sid'|] eqn:Hsid; simpl; [|done].
  destruct (subscript e "value") as [v'| |] eqn:Hv; simpl; [|done..].
  apply subscript_Ok in Hv as (de & -> & Hv). simpl.
  destruct (de !! "periodName") as [pn|] eqn:Hpn; simpl; [|done].
  destruct (add_str pn (JStr "-")) as [pd| |] eqn:Hpd; simpl; [|done..].
  apply add_str_Ok_inv in Hpd as (x & ? & -> & [= <-] & ->).
  destruct (de !! "year") as [yr|] eqn:Hyr; simpl; [|done].
  destruct yr as [| | |y| |]; simpl; try done.
  intros [= <- <- <-].
  apply scan_latest_Ok in Hscan as [(? & _)|(pre & post & -> & Hd & Hn & He)];
    [done|].
  assert (∃ xs, data = JArr xs) as [xs ->].
  { destruct data as [| | | |xs|]; eauto; exfalso;
      (eapply iterate_not_list in Hit; [|done]);
      apply Forall_app in Hit as [_ Hit]; by inversion Hit. }
  injection Hit as ->.
  exists (pre ++ JObj de :: post)%list, pre, (JObj de), post, x, y.
  split_and!; try done.
  - by exists d.
  - by exists de.
  - by rewrite append_assoc.
Qed.

Lemma find_latest_value_Ok_inv_witness :
  ∃ items pre e post pn y,
    series_of (series "LNS14000000" [february_2024; march_2024])
      (JStr "LNS14000000") items ∧
    items = (pre ++ e :: post)%list ∧
    Forall (λ i, is_dict i = true) pre ∧
    Forall (λ i, is_latest i = false) pre ∧
    is_latest e = true ∧ entry e (JStr "3.7") pn y ∧
    JStr "March-2024" = JStr (pn ++ "-" ++ y).
Proof.
  apply (find_latest_value_Ok_inv
           (series "LNS14000000" [february_2024; march_2024])).
  by vm_compute.
Defined.

(** ** What [find_trended_data] returns, and where it stops *)

(** A series the table cannot label: its identifier is missing, or is a
    text that is not a key of the table. *)
Definition unlabelled (dk : gmap string string) (item : json) : Prop :=
  ∃ d, item = JObj d ∧
       (d !! "seriesID" = None ∨
        ∃ sid, d !! "seriesID" = Some (JStr sid) ∧ dk !! sid = None).

Section TrendedInversion.

Context (dk : gmap string string) (key : string).
Implicit Types (items pre post : list json) (item dat : json).

Lemma lookup_key_Ok {V : Type} (m : gmap string V) (k : json) (v : V) :
  lookup_key m k = Ok v → ∃ t, k = JStr t ∧ m !! t = Some v.
Proof.
  destruct k as [| | |t| |]; simpl; try done.
  destruct (m !! t) as [w|] eqn:Hw; [|done]. intros [= <-]. eauto.
Qed.

Lemma scan_trended_Ok items dat :
  scan_trended dk key items = Ok dat →
  (∃ pre item post, items = (pre ++ item :: post)%list
     ∧ Forall (known dk) pre
     ∧ Forall (λ i, has_label dk key i = false) pre
     ∧ has_label dk key item = true ∧ subscript item "data" = Ok dat) ∨
  (dat = JNull ∧ Forall (known dk) items
   ∧ Forall (λ i, has_label dk key i = false) items).
Proof.
  revert dat. induction items as [|item items IH]; intros dat; simpl.
  - intros [= <-]. right. by split_and!.
  - destruct (subscript item "seriesID") as [sid| |] eqn:Hsid; simpl;
      [|done..].
    apply subscript_Ok in Hsid as (d & -> & Hsid).
    destruct (lookup_key dk sid) as [label| |] eqn:Hlabel; simpl; [|done..].
    apply lookup_key_Ok in Hlabel as (t & -> & Hlabel).
    assert (known dk (JObj d)) as Hknown by (exists d, t; eauto).
    case_bool_decide as Hkey.
    + intros Hdat. left. exists [], (JObj d), items.
      split_and!; try done. simpl. rewrite Hsid.
      apply bool_decide_eq_true. by rewrite Hlabel, Hkey.
    + assert (has_label dk key (JObj d) = false) as Hno.
      { simpl. rewrite Hsid. apply bool_decide_eq_false.
        rewrite Hlabel. congruence. }
      intros [(pre & it & post & -> & Hk & Hn & Hl & Hd)
             |(-> & Hk & Hn)]%IH.
      * left. exists (JObj d :: pre), it, post.
        split_and!; try done; by constructor.
      * right. split_and!; [done | by constructor | by constructor].
Qed.

Lemma scan_trended_unlabelled item items :
  unlabelled dk item → scan_trended dk key (item :: items) = Raise KeyError.
Proof.
  intros (d & -> & [Hsid|(sid & Hsid & Hdk)]); simpl; rewrite Hsid; simpl;
    [done|]. by rewrite Hdk.
Qed.

End TrendedInversion.

(** X2: whenever [find_trended_data] returns from a list of series, either
    it returns the ['data'] of the first series labelled [key], every
    series before it being labelled otherwise, or no series of the list is
    labelled [key] and the value returned is [None]. *)
Theorem find_trended_data_Ok_inv (dk : gmap string string) (key : string)
    (items : list json) (dat : json) :
  find_trended_data (JArr items) dk key = Ok dat →
  (∃ pre item post, items = (pre ++ item :: post)%list
     ∧ Forall (known dk) pre
     ∧ Forall (λ i, has_label dk key i = false) pre
     ∧ has_label dk key item = true ∧ subscript item "data" = Ok dat) ∨
  (dat = JNull ∧ Forall (known dk) items
   ∧ Forall (λ i, has_label dk key i = false) items).
Proof. unfold find_trended_data. simpl. apply scan_trended_Ok. Qed.

Lemma find_trended_data_Ok_inv_witness :
  (∃ pre item post,
     [unemployment_level_series; labor_force_series]
     = (pre ++ item :: post)%list
     ∧ Forall (known data_dict_key) pre
     ∧ Forall (λ i, has_label data_dict_key "Labor Force" i = false) pre
     ∧ has_label data_dict_key "Labor Force" item = true
     ∧ subscript item "data"
       = Ok (JArr [ observation_of "2023" "M03" "March" "9000" (Some "true");
                    observation_of "2023" "M01" "January" "9900" None ])) ∨
  (JArr [ observation_of "2023" "M03" "March" "9000" (Some "true");
          observation_of "2023" "M01" "January" "9900" None ] = JNull
   ∧ Forall (known data_dict_key)
       [unemployment_level_series; labor_force_series]
   ∧ Forall (λ i, has_label data_dict_key "Labor Force" i = false)
       [unemployment_level_series; labor_force_series]).
Proof.
  apply (find_trended_data_Ok_inv data_dict_key "Labor Force").
  by vm_compute.
Defined.

(** X3: the scan stops with a [KeyError] at the first series the table
    cannot label, even when a series further down the list carries the
    label asked for. *)
Theorem find_trended_data_unlabelled (dk : gmap string string) (key : string)
    (pre post : list json) (item : json) :
  Forall (known dk) pre →
  Forall (λ i, has_label dk key i = false) pre →
  unlabelled dk item →
  find_trended_data (JArr (pre ++ item :: post)) dk key = Raise KeyError.
Proof.
  intros Hk Hn Hu. unfold find_trended_data. simpl.
  induction pre as [|i pre IH].
  - by apply scan_trended_unlabelled.
  - inversion_clear Hk. inversion_clear Hn.
    rewrite <- app_comm_cons, scan_trended_skip by done. by apply IH.
Qed.

(** A series of another program, ahead of the series asked for. *)
Definition foreign_series : json :=
  series "CUUR0000SA0" [observation_of "2023" "M01" "January" "299.170" None].

Lemma find_trended_data_unlabelled_witness :
  find_trended_data
    (JArr ([unemployment_level_series] ++ foreign_series
           :: [labor_force_series])%list) data_dict_key "Labor Force"
  = Raise KeyError.
Proof.
  apply (find_trended_data_unlabelled data_dict_key "Labor Force"
           [unemployment_level_series] [labor_force_series] foreign_series).
  - repeat constructor. eexists _, "LNS13000000". split; [reflexivity|].
    split; [by vm_compute | eexists; by vm_compute].
  - repeat constructor.
  - eexists. split; [reflexivity|]. right. exists "CUUR0000SA0".
    split; by vm_compute.
Defined.

(** ** The table of latest values *)

(** The label under which the loop files a series. *)
Definition label_of (each : json) : outcome string :=
  sid ← subscript each "seriesID" ;
  lookup_key data_dict_key sid.

Section Lvals.

Implicit Types (each : json) (rest pre post : list json)
  (m : gmap string (json * json)) (label : string).

Lemma find_latest_value_sid each c :
  find_latest_value each = Ok c → subscript each "seriesID" = Ok c.1.1.
Proof.
  unfold find_latest_value.
  destruct (subscript each "data") as [data| |]; simpl; [|done..].
  destruct (iterate data) as [items| |]; simpl; [|done..].
  destruct (scan_latest items) as [e| |]; simpl; [|done..].
  destruct (subscript each "seriesID") as [sid| |]; simpl; [|done..].
  repeat match goal with
         | |- context [mbind _ ?x] => destruct x; simpl; [|done..]
         end.
  by intros [= <-].
Qed.

(** One turn of the loop, for a series that has a latest value and a
    label. *)
Lemma fill_Lvals_cons each rest m c label :
  find_latest_value each = Ok c → lookup_key data_dict_key c.1.1 = Ok label →
  fill_Lvals (each :: rest) m
  = fill_Lvals rest (<[label := (c.1.2, c.2)]> m).
Proof. intros Hc Hl. simpl. rewrite Hc. simpl. by rewrite Hl. Qed.

Lemma fill_Lvals_cons_Ok each rest m m' :
  fill_Lvals (each :: rest) m = Ok m' →
  ∃ c label, find_latest_value each = Ok c ∧
             lookup_key data_dict_key c.1.1 = Ok label ∧
             label_of each = Ok label ∧
             fill_Lvals rest (<[label := (c.1.2, c.2)]> m) = Ok m'.
Proof.
  simpl. destruct (find_latest_value each) as [c| |] eqn:Hc; simpl; [|done..].
  destruct (lookup_key data_dict_key c.1.1) as [label| |] eqn:Hl; simpl;
    [|done..].
  intros Hm. exists c, label. split_and!; try done.
  unfold label_of. by rewrite (find_latest_value_sid each c Hc).
Qed.

Lemma fill_Lvals_app pre post m :
  fill_Lvals (pre ++ post) m = fill_Lvals pre m ≫= fill_Lvals post.
Proof.
  revert m. induction pre as [|each pre IH]; intros m; [done|].
  rewrite <- app_comm_cons. simpl.
  destruct (find_latest_value each) as [c| |]; simpl; [|done..].
  destruct (lookup_key data_dict_key c.1.1) as [label| |]; simpl; [|done..].
  apply IH.
Qed.

(** A label none of the series carries keeps its entry. *)
Lemma fill_Lvals_untouched rest m m' label :
  fill_Lvals rest m = Ok m' →
  Forall (λ x, label_of x ≠ Ok label) rest →
  m' !! label = m !! label.
Proof.
  revert m. induction rest as [|each rest IH]; intros m.
  - by intros [= <-].
  - intros (c & lab & _ & _ & Hlab & Hm)%fill_Lvals_cons_Ok Hall.
    inversion_clear Hall as [|? ? Hne Hrest].
    rewrite (IH _ Hm Hrest). apply lookup_insert_ne. congruence.
Qed.

Lemma fill_Lvals_is_Some rest m m' label :
  fill_Lvals rest m = Ok m' →
  is_Some (m' !! label) ↔
  is_Some (m !! label) ∨ Exists (λ x, label_of x = Ok label) rest.
Proof.
  revert m. induction rest as [|each rest IH]; intros m.
  - intros [= <-]. rewrite Exists_nil. tauto.
  - intros (c & lab & _ & _ & Hlab & Hm)%fill_Lvals_cons_Ok.
    rewrite (IH _ Hm), Exists_cons, Hlab.
    destruct (decide (lab = label)) as [->|Hne].
    + rewrite lookup_insert_eq. split; [auto|]. intros _. left. eauto.
    + rewrite lookup_insert_ne by done. split.
      * intros [?|?]; auto.
      * intros [?|[[=]|?]]; auto. done.
Qed.

End Lvals.

(** X4: after the loop over the series, started from the empty table,
    [Lvals_dict] has an entry for a label exactly when some series of the
    answer carries that label. *)
Theorem fill_Lvals_keys (items : list json) (m : gmap string (json * json))
    (label : string) :
  fill_Lvals items ∅ = Ok m →
  is_Some (m !! label) ↔ Exists (λ x, label_of x = Ok label) items.
Proof.
  intros Hm. rewrite (fill_Lvals_is_Some items ∅ m label Hm), lookup_empty.
  split; [|auto]. intros [[? [=]]|?]. done.
Qed.

Lemma fill_Lvals_keys_witness :
  is_Some
    (({[ "Unemployment Level" := (JStr "6000", JStr "March-2023");
         "Labor Force" := (JStr "9000", JStr "March-2023") ]}
      : gmap string (json * json)) !! "Labor Force") ↔
  Exists (λ x, label_of x = Ok "Labor Force")
    [unemployment_level_series; labor_force_series].
Proof.
  apply (fill_Lvals_keys [unemployment_level_series; labor_force_series]).
  by vm_compute.
Defined.

(** X5: the entry of a label is the pair (value, period label) of the last
    series of the answer that carries the label: a later series with the
    same label overwrites an earlier one. *)
Theorem fill_Lvals_last (pre post : list json) (each sid v l : json)
    (m m' : gmap string (json * json)) (label : string) :
  fill_Lvals (pre ++ each :: post) m = Ok m' →
  find_latest_value each = Ok (sid, v, l) →
  lookup_key data_dict_key sid = Ok label →
  Forall (λ x, label_of x ≠ Ok label) post →
  m' !! label = Some (v, l).
Proof.
  intros Hm Hc Hl Hpost. rewrite fill_Lvals_app in Hm.
  destruct (fill_Lvals pre m) as [m1| |]; [|done..].
  change (fill_Lvals (each :: post) m1 = Ok m') in Hm.
  rewrite (fill_Lvals_cons each post m1 (sid, v, l) label Hc Hl) in Hm.
  rewrite (fill_Lvals_untouched post _ m' label Hm Hpost).
  apply lookup_insert_eq.
Qed.

(** Two series with the identifier of the unemployment rate. *)
Definition rate_january : json := series "LNS14000000" [january_2024_flagged].
Definition rate_march : json := series "LNS14000000" [march_2024].

Lemma fill_Lvals_last_witness :
  ({[ "Unemployment Rate" := (JStr "3.7", JStr "March-2024");
      "Labor Force" := (JStr "9000", JStr "March-2023") ]}
   : gmap string (json * json)) !! "Unemployment Rate"
  = Some (JStr "3.7", JStr "March-2024").
Proof.
  apply (fill_Lvals_last [rate_january] [labor_force_series] rate_march
           (JStr "LNS14000000") (JStr "3.7") (JStr "March-2024") ∅).
  - by vm_compute.
  - by vm_compute.
  - by vm_compute.
  - repeat constructor. by vm_compute.
Defined.

(** X6: one series without a latest value stops the whole loop: when the
    series before it are filed and [find_latest_value] raises on it, the
    loop raises the same exception, whatever series follow. *)
Theorem fill_Lvals_raises (pre post : list json) (each : json) (e : exn)
    (m : gmap string (json * json)) :
  Forall (λ x, ∃ c label, find_latest_value x = Ok c ∧
                          lookup_key data_dict_key c.1.1 = Ok label) pre →
  find_latest_value each = Raise e →
  fill_Lvals (pre ++ each :: post) m = Raise e.
Proof.
  intros Hpre He. revert m. induction Hpre as [|x pre (c & lab & Hc & Hl) _ IH];
    intros m.
  - simpl. by rewrite He.
  - rewrite <- app_comm_cons, (fill_Lvals_cons x _ m c lab Hc Hl). apply IH.
Qed.

Lemma fill_Lvals_raises_witness :
  fill_Lvals ([labor_force_series] ++ unflagged_series :: [rate_march])%list ∅
  = Raise TypeError.
Proof.
  apply (fill_Lvals_raises [labor_force_series] [rate_march] unflagged_series).
  - repeat constructor.
    exists (JStr "JTS000000000000000JOL", JStr "9000", JStr "March-2023"),
      "Labor Force".
    split; by vm_compute.
  - by vm_compute.
Defined.

(** X7: when the loop succeeds but the answer holds no series labelled
    ["Unemployment Rate"], or none labelled ["Avg Hourly Earnings"], reading
    the table for the notes raises [KeyError]. *)
Theorem speaker_notes_missing_series (json_data results : json)
    (items : list json) (m : gmap string (json * json)) :
  subscript json_data "Results" = Ok results →
  subscript results "series" = Ok (JArr items) →
  fill_Lvals items ∅ = Ok m →
  Forall (λ x, label_of x ≠ Ok "Unemployment Rate") items ∨
  Forall (λ x, label_of x ≠ Ok "Avg Hourly Earnings") items →
  speaker_notes json_data = Raise KeyError.
Proof.
  intros Hres Hser Hm Hmiss. unfold speaker_notes.
  rewrite Hres. simpl. rewrite Hser. simpl. rewrite Hm. simpl.
  destruct Hmiss as [Hno|Hno].
  - by rewrite (fill_Lvals_untouched items ∅ m _ Hm Hno), lookup_empty.
  - destruct (m !! "Unemployment Rate"); simpl; [|done].
    by rewrite (fill_Lvals_untouched items ∅ m _ Hm Hno), lookup_empty.
Qed.

Definition trend_only_answer : json :=
  JObj {[ "Results" :=
    JObj {[ "series" :=
      JArr [unemployment_level_series; labor_force_series] ]} ]}.

Lemma speaker_notes_missing_series_witness :
  speaker_notes trend_only_answer = Raise KeyError.
Proof.
  apply (speaker_notes_missing_series trend_only_answer
           (JObj {[ "series" :=
              JArr [unemployment_level_series; labor_force_series] ]})
           [unemployment_level_series; labor_force_series]
           {[ "Unemployment Level" := (JStr "6000", JStr "March-2023");
              "Labor Force" := (JStr "9000", JStr "March-2023") ]}).
  - by vm_compute.
  - by vm_compute.
  - by vm_compute.
  - left. repeat constructor; by vm_compute.
Defined.

(** ** From observations to a frame *)

(** The row [row] holds the four kept fields of the observation [item]. *)
Definition row_of (item : json) (row : obs_row) : Prop :=
  ∃ d, item = JObj d ∧
       d !! "year" = Some (JStr (o_year row)) ∧
       d !! "period" = Some (JStr (o_period row)) ∧
       d !! "periodName" = Some (JStr (o_periodName row)) ∧
       d !! "value" = Some (JStr (o_value row)).

(** The observation has no key beyond those of the API. *)
Definition within_columns (item : json) : Prop :=
  ∃ d, item = JObj d ∧ dom d ⊆ observation_columns.

(** The observation has the key [c]. *)
Definition has_key (c : string) (item : json) : Prop :=
  ∃ d, item = JObj d ∧ is_Some (d !! c).

Section Frame.

Implicit Types (item data : json) (items : list json) (row : obs_row)
  (rows : list obs_row).

Lemma observation_row item row :
  row_of item row → within_columns item → observation item = Some row.
Proof.
  intros (d & -> & Hy & Hp & Hpn & Hv) (d' & [= <-] & Hdom). simpl.
  rewrite bool_decide_eq_true_2 by done.
  rewrite Hy, Hp, Hpn, Hv. simpl. by destruct row.
Qed.

Lemma has_column_true c items :
  has_column c items = true ↔ Exists (has_key c) items.
Proof.
  unfold has_column. induction items as [|item items IH]; simpl.
  - rewrite Exists_nil. done.
  - rewrite orb_true_iff, Exists_cons, IH.
    assert (match item with
            | JObj d => bool_decide (is_Some (d !! c))
            | _ => false
            end = true ↔ has_key c item) as ->; [|done].
    destruct item as [| | | | |d]; try (split; [done | by intros (? & ? & ?)]).
    rewrite bool_decide_eq_true. split.
    + intros ?. by exists d.
    + by intros (? & [= <-] & ?).
Qed.

Lemma has_column_false c items :
  has_column c items = false ↔ Forall (λ i, ¬ has_key c i) items.
Proof.
  rewrite <- not_true_iff_false, has_column_true, Exists_exists, Forall_forall.
  split.
  - intros Hno i Hi Hk. apply Hno. eauto.
  - intros Hall (i & Hi & Hk). by apply (Hall i).
Qed.

End Frame.

(** X8: for a list of observations with text year, period, period name
    and value and no key beyond those of the API, of which one at least
    carries ['footnotes'] and one at least ['latest'],
    [pd.DataFrame(data).drop(...)] succeeds and the frame has one row per
    observation, in the order of the list, holding those four fields. *)
Theorem DataFrame_drop_rows (items : list json) (rows : list obs_row) :
  Forall2 row_of items rows →
  Forall within_columns items →
  Exists (has_key "footnotes") items →
  Exists (has_key "latest") items →
  DataFrame_drop (JArr items) = Ok rows.
Proof.
  intros Hrows Hcols Hf Hl. simpl.
  assert (mapM observation items = Some rows) as ->.
  { apply mapM_Some. clear Hf Hl.
    induction Hrows as [|item row items rows Hr _ IH];
      [constructor|].
    inversion_clear Hcols. constructor; [by apply observation_row | by apply IH]. }
  apply has_column_true in Hf, Hl. by rewrite Hf, Hl.
Qed.

Lemma DataFrame_drop_rows_witness :
  DataFrame_drop
    (JArr [ observation_of "2023" "M03" "March" "9000" (Some "true");
            observation_of "2023" "M01" "January" "9900" None ])
  = Ok LF_frame.
Proof.
  apply (DataFrame_drop_rows
           [ observation_of "2023" "M03" "March" "9000" (Some "true");
             observation_of "2023" "M01" "January" "9900" None ] LF_frame).
  - constructor; [|constructor; [|constructor]];
      (eexists; split; [reflexivity|]; split_and!; by vm_compute).
  - constructor; [|constructor; [|constructor]];
      (eexists; split; [reflexivity|]; apply (bool_decide_unpack _);
       by vm_compute).
  - apply Exists_cons_hd. eexists. split; [reflexivity|].
    eexists. by vm_compute.
  - apply Exists_cons_hd. eexists. split; [reflexivity|].
    eexists. by vm_compute.
Defined.

(** X9: a list of observations none of which carries the key ['latest']
    gives a frame without that column, and dropping the column raises
    [KeyError]; the empty list is such a list. *)
Theorem DataFrame_drop_without_latest (items : list json) :
  Forall (λ i, is_Some (observation i)) items →
  Forall (λ i, ¬ has_key "latest" i) items →
  DataFrame_drop (JArr items) = Raise KeyError.
Proof.
  intros Hobs Hno. simpl.
  destruct (mapM observation items) as [rows|] eqn:Hrows.
  - apply has_column_false in Hno. rewrite Hno.
    by rewrite andb_false_r.
  - apply eq_None_not_Some in Hrows. destruct Hrows.
    by apply mapM_is_Some.
Qed.

Lemma DataFrame_drop_without_latest_witness :
  DataFrame_drop (JArr [february_2024]) = Raise KeyError.
Proof.
  apply (DataFrame_drop_without_latest [february_2024]).
  - repeat constructor. eexists. by vm_compute.
  - repeat constructor. intros (d & Hd & Hl). injection Hd as <-.
    destruct Hl as [x Hx]. by vm_compute in Hx.
Defined.

(** *** A missing series *)

Lemma scan_trended_known (dk : gmap string string) (key : string)
    (items : list json) :
  Forall (known dk) items →
  (∃ dat, scan_trended dk key items = Ok dat) ∨
  scan_trended dk key items = Raise KeyError.
Proof.
  induction 1 as [|item items Hk _ IH]; [left; by eexists|].
  destruct (has_label dk key item) eqn:Hl.
  - rewrite scan_trended_hit by done.
    destruct Hk as (d & sid & -> & _). simpl.
    destruct (d !! "data"); [left; by eexists | by right].
  - by rewrite scan_trended_skip.
Qed.

(** X10: when the identifiers of the answer are all keys of the table and
    no series is labelled ["Unemployment Level"], [find_trended_data]
    returns [None] without complaint and the script fails only afterwards,
    with the [KeyError] of dropping columns from an empty frame (or of a
    ['data'] field missing from the other series). *)
Theorem trended_table_missing_series (items : list json) :
  Forall (known data_dict_key) items →
  Forall (λ i, has_label data_dict_key "Unemployment Level" i = false) items →
  find_trended_data (JArr items) data_dict_key "Unemployment Level"
  = Ok JNull ∧
  trended_table (JArr items) = Raise KeyError.
Proof.
  intros Hk Hn.
  assert (find_trended_data (JArr items) data_dict_key "Unemployment Level"
          = Ok JNull) as HU.
  { unfold find_trended_data. simpl. by apply scan_trended_none. }
  split; [done|]. unfold trended_table. rewrite HU. simpl.
  destruct (scan_trended_known data_dict_key "Labor Force" items Hk)
    as [[dat Hdat]|Hraise].
  - unfold find_trended_data. simpl. by rewrite Hdat.
  - unfold find_trended_data. simpl. by rewrite Hraise.
Qed.

Lemma trended_table_missing_series_witness :
  find_trended_data (JArr [labor_force_series; rate_march]) data_dict_key
    "Unemployment Level" = Ok JNull ∧
  trended_table (JArr [labor_force_series; rate_march]) = Raise KeyError.
Proof.
  apply (trended_table_missing_series [labor_force_series; rate_march]).
  - repeat constructor.
    + eexists _, "JTS000000000000000JOL". split; [reflexivity|].
      split; [by vm_compute | eexists; by vm_compute].
    + eexists _, "LNS14000000". split; [reflexivity|].
      split; [by vm_compute | eexists; by vm_compute].
  - repeat constructor.
Defined.

(** ** The join, read both ways *)

(** The row with its two value columns exchanged. *)
Definition swap_values (r : merged_row) : merged_row :=
  MergedRow (m_year r) (m_period r) (m_periodName r) (m_value_LB r)
    (m_value_UEL r).

Section JoinBothWays.

Implicit Types (A B : list obs_row) (a b : obs_row) (r : merged_row).

Lemma swap_values_involutive r : swap_values (swap_values r) = r.
Proof. by destruct r. Qed.

Lemma swap_join_rows a b :
  key_of b = key_of a → swap_values (join_rows a b) = join_rows b a.
Proof.
  destruct a, b. unfold key_of, swap_values, join_rows. simpl.
  by intros [= -> -> ->].
Qed.

Lemma merge_nil_r A : merge A [] = [].
Proof. induction A as [|a A IH]; [done|]. by rewrite merge_cons, IH. Qed.

Lemma length_merge_cons_r A b B :
  length (merge A (b :: B))
  = (length (filter (λ a, key_of b = key_of a) A) + length (merge A B))%nat.
Proof.
  induction A as [|a A IH]; [done|].
  rewrite !merge_cons, !length_app, !length_fmap, IH, !filter_cons.
  destruct (decide (key_of b = key_of a)); simpl; lia.
Qed.

Lemma length_merge_comm A B : length (merge A B) = length (merge B A).
Proof.
  induction A as [|a A IH]; [by rewrite merge_nil_r|].
  rewrite merge_cons, length_app, length_fmap, length_merge_cons_r, IH.
  f_equal. f_equal. apply list_filter_iff. intros b. split; congruence.
Qed.

End JoinBothWays.

(** X11: joining the frames the other way round gives as many rows, and
    the same rows with the two value columns exchanged. *)
Theorem merge_swap (A B : list obs_row) :
  length (merge B A) = length (merge A B) ∧
  ∀ r, r ∈ merge A B ↔ swap_values r ∈ merge B A.
Proof.
  split; [apply length_merge_comm|]. intros r. rewrite !elem_of_merge. split.
  - intros (a & b & Ha & Hb & Hk & ->). exists b, a.
    split_and!; [done | done | done | by apply swap_join_rows].
  - intros (b & a & Hb & Ha & Hk & Hr). exists a, b.
    split_and!; [done | done | done |].
    by rewrite <- (swap_values_involutive r), Hr, swap_join_rows.
Qed.

(** ** The rows of the chart *)

(** X12: the table the Reshaper returns has one row per row of the join,
    and its rows are the matched pairs: every row takes its key and its
    first value from a row of the first frame and its second value from a
    row of the second frame with the same key, and every such pair of rows
    is a row of the table. *)
Theorem Reshaper_rows (A B : list obs_row) (out : list trend_row) :
  Reshaper A B = Ok out →
  length out = length (merge A B) ∧
  (∀ t, t ∈ out →
        ∃ a b, a ∈ A ∧ b ∈ B ∧ key_of b = key_of a ∧
               (year t, period t, periodName t) = key_of a ∧
               value_UEL t = o_value a ∧ value_LB t = o_value b) ∧
  (∀ a b, a ∈ A → b ∈ B → key_of b = key_of a →
          ∃ t, t ∈ out ∧ (year t, period t, periodName t) = key_of a ∧
               value_UEL t = o_value a ∧ value_LB t = o_value b).
Proof.
  intros Hout. split_and!.
  - by apply Reshaper_Ok_length.
  - intros t Ht. destruct (Reshaper_Ok_elem A B out t Hout Ht) as (r & Hr & Hd).
    apply elem_of_merge in Hr as (a & b & Ha & Hb & Hk & ->).
    apply derive_Ok_cells in Hd as (-> & -> & -> & -> & ->).
    by exists a, b.
  - intros a b Ha Hb Hk.
    destruct (Reshaper_Ok_elem_inv A B out (join_rows a b) Hout)
      as (t & Ht & Hd).
    { apply elem_of_merge. by exists a, b. }
    apply derive_Ok_cells in Hd as (Hy & Hp & Hpn & Hu & Hl).
    exists t. rewrite Hy, Hp, Hpn, Hu, Hl. by split_and!.
Qed.

Lemma Reshaper_rows_witness :
  length sample_table = length (merge UEL_frame LF_frame) ∧
  (∀ t, t ∈ sample_table →
        ∃ a b, a ∈ UEL_frame ∧ b ∈ LF_frame ∧ key_of b = key_of a ∧
               (year t, period t, periodName t) = key_of a ∧
               value_UEL t = o_value a ∧ value_LB t = o_value b) ∧
  (∀ a b, a ∈ UEL_frame → b ∈ LF_frame → key_of b = key_of a →
          ∃ t, t ∈ sample_table ∧
               (year t, period t, periodName t) = key_of a ∧
               value_UEL t = o_value a ∧ value_LB t = o_value b).
Proof.
  apply (Reshaper_rows UEL_frame LF_frame sample_table). by vm_compute.
Defined.

(** X13: in every row of the table the label is the period name, a hyphen
    and the year, the month is what the month table gives for the period
    name, a number from 1 to 12, and a row has a date exactly when it has
    a month; for the year read as a decimal number, the date is the first
    day of that month of that year. *)
Theorem Reshaper_columns (A B : list obs_row) (out : list trend_row)
    (t : trend_row) :
  Reshaper A B = Ok out → t ∈ out →
  pdnamelist t = periodName t ++ "-" ++ year t ∧
  month t = month_map !! periodName t ∧
  (∀ k, month t = Some k → (1 ≤ k ≤ 12)%Z) ∧
  (date t = None ↔ month t = None) ∧
  (∀ n k, to_numeric (year t) = Ok n → month t = Some k →
          date t = Some (n * 10000 + k * 100 + 1)%Z).
Proof.
  intros Hout Ht.
  destruct (Reshaper_Ok_elem A B out t Hout Ht) as (r & _ & Hd).
  pose proof (derive_Ok r t Hd) as (Hpn & Hy & Hm & Hl & Hnone).
  destruct (derive_Ok_date r t Hd) as (n & Hn & Hdate).
  split_and!.
  - by rewrite Hl, Hpn, Hy.
  - by rewrite Hm, Hpn.
  - intros k Hk. rewrite Hm in Hk. apply month_map_spec in Hk as [H1 Hc].
    apply lookup_lt_Some in Hc. simpl in Hc. lia.
  - done.
  - intros n' k Hn' Hk. rewrite Hn in Hn'. injection Hn' as <-.
    by rewrite Hdate, Hk.
Qed.

Lemma Reshaper_columns_witness :
  pdnamelist january_row = periodName january_row ++ "-" ++ year january_row ∧
  month january_row = month_map !! periodName january_row ∧
  (∀ k, month january_row = Some k → (1 ≤ k ≤ 12)%Z) ∧
  (date january_row = None ↔ month january_row = None) ∧
  (∀ n k, to_numeric (year january_row) = Ok n →
          month january_row = Some k →
          date january_row = Some (n * 10000 + k * 100 + 1)%Z).
Proof.
  apply (Reshaper_columns annual_frame annual_frame [january_row; annual_row]).
  - by vm_compute.
  - apply list_elem_of_here.
Defined.

(** X14: when every year of the first frame is a plain decimal number
    between 1678 and 2261, the Reshaper returns a table, whatever the
    period names and whatever the second frame holds. *)
Theorem Reshaper_returns (A B : list obs_row) :
  Forall (λ a, ∃ n, to_numeric (o_year a) = Ok n ∧ (1678 ≤ n ≤ 2261)%Z) A →
  ∃ out, Reshaper A B = Ok out ∧ length out = length (merge A B).
Proof.
  intros HA.
  destruct (mapM_Ok_exists derive (merge A B)) as [k Hk].
  { apply Forall_forall. intros r (a & b & Ha & _ & _ & ->)%elem_of_merge.
    rewrite Forall_forall in HA. destruct (HA a Ha) as (n & Hn & Hrange).
    unfold derive. rewrite to_datetime_month_map. simpl. rewrite Hn. simpl.
    rewrite bool_decide_eq_true_2 by done. simpl. by eexists. }
  assert (Reshaper A B = Ok (sort_values k)) as Hout.
  { unfold Reshaper. by rewrite Hk. }
  exists (sort_values k). split; [done|]. by apply Reshaper_Ok_length.
Qed.

Lemma Reshaper_returns_witness :
  ∃ out, Reshaper annual_frame LF_frame = Ok out
         ∧ length out = length (merge annual_frame LF_frame).
Proof.
  apply (Reshaper_returns annual_frame LF_frame).
  repeat constructor; exists 2023%Z; by vm_compute.
Defined.

(** ** The dates of the chart title *)

(** The smaller and the larger of two dates, [NaT] left aside. *)
Definition min_date (d1 d2 : option Z) : option Z :=
  match d1, d2 with
  | Some a, Some b => Some (Z.min a b)
  | Some a, None => Some a
  | None, d => d
  end.

Definition max_date (d1 d2 : option Z) : option Z :=
  match d1, d2 with
  | Some a, Some b => Some (Z.max a b)
  | Some a, None => Some a
  | None, d => d
  end.

(** [merged_df['date'].min()] and [merged_df['date'].max()]: rows without a
    date are skipped, and the result is [NaT] when no row has a date. *)
Definition date_min (rows : list trend_row) : option Z :=
  foldr min_date None (date <$> rows).

Definition date_max (rows : list trend_row) : option Z :=
  foldr max_date None (date <$> rows).

Section Title.

Implicit Types (t : trend_row) (rows init rest : list trend_row)
  (d m : option Z).

Lemma min_date_below d m : na_last_le d m → min_date d m = d.
Proof.
  destruct d as [a|], m as [b|]; simpl; try done.
  intros ?. f_equal. lia.
Qed.

Lemma na_last_le_min_date d d1 d2 :
  na_last_le d d1 → na_last_le d d2 → na_last_le d (min_date d1 d2).
Proof. destruct d as [a|], d1 as [b|], d2 as [c|]; simpl; try done. lia. Qed.

Lemma na_last_le_date_min d rows :
  Forall (λ x, na_last_le d (date x)) rows → na_last_le d (date_min rows).
Proof.
  induction 1 as [|x rows Hx _ IH]; [by destruct d|].
  by apply na_last_le_min_date.
Qed.

Lemma date_min_head t rest :
  StronglySorted row_le (t :: rest) → date_min (t :: rest) = date t.
Proof.
  intros [_ Hall]%StronglySorted_inv.
  apply min_date_below, na_last_le_date_min, Hall.
Qed.

Lemma date_max_last init t (a : Z) :
  StronglySorted row_le (init ++ [t]) → date t = Some a →
  date_max (init ++ [t]) = Some a.
Proof.
  intros Hs Ht. induction init as [|x init IH].
  - unfold date_max. simpl. by rewrite Ht.
  - rewrite <- app_comm_cons in Hs.
    apply StronglySorted_inv in Hs as [Hs Hall].
    specialize (IH Hs).
    assert (row_le x t) as Hxt.
    { rewrite Forall_forall in Hall. apply Hall. set_solver. }
    unfold row_le in Hxt. rewrite Ht in Hxt.
    unfold date_max in *. rewrite <- app_comm_cons, fmap_cons. simpl.
    rewrite IH. destruct (date x) as [b|]; simpl in *; [|done].
    f_equal. lia.
Qed.

End Title.

(** X15: the first date of the chart title is the date of the first row of
    the table, and when the last row of the table has a date, the second
    date of the title is that date. *)
Theorem Reshaper_title_dates (A B : list obs_row) (out : list trend_row) :
  Reshaper A B = Ok out →
  (∀ t rest, out = t :: rest → date_min out = date t) ∧
  (∀ init t a, out = (init ++ [t])%list → date t = Some a →
               date_max out = Some a).
Proof.
  intros Hout.
  assert (StronglySorted row_le out) as Hs.
  { apply (@Sorted_StronglySorted _ row_le row_le_trans).
    by eapply Reshaper_Ok_sorted. }
  split.
  - intros t rest ->. by apply date_min_head.
  - intros init t a -> Ht. by apply date_max_last.
Qed.

Lemma Reshaper_title_dates_witness :
  (∀ t rest, sample_table = t :: rest → date_min sample_table = date t) ∧
  (∀ init t a, sample_table = (init ++ [t])%list → date t = Some a →
               date_max sample_table = Some a).
Proof.
  apply (Reshaper_title_dates UEL_frame LF_frame sample_table).
  by vm_compute.
Defined.
